(** * The data-repository ingest wizard of [cmd/cli/cmd/datarepo.go]

    A shallow embedding of the interactive wizard behind [daft datarepo
    ingest]: the selectable options, the location -> format compatibility
    table, the prompt-driven config builders, the four wizard steps and the
    driver that chains them.

    The wizard talks to collaborators that live outside this file of the
    program (the prompt engine, the sampling engine, the YAML library).  They
    are modelled as an environment of functions; every call with an
    observable effect is appended to a trace, and a collaborator's answer may
    depend on the whole trace that precedes the call. *)

From stdpp Require Import base option list gmap strings.
From Stdlib Require Import String Ascii.

Open Scope string_scope.

(** ** Go values *)

(** A Go [error] interface value as a caller can observe it: the dynamic
    type of the value and the text of its [Error()] method. *)
Record error := mkError { dynType : string; Error : string }.

(** [errors.New(s)]: a [*errors.errorString] carrying [s]. *)
Definition errors_New (s : string) : error :=
  mkError "*errors.errorString" s.

(** [fmt.Errorf(format, ...)] with no [%w] verb returns [errors.New] of the
    formatted text. *)
Definition fmt_Errorf (formatted : string) : error := errors_New formatted.

(** Modelled from the spec: the declaration of [selectPromptData] is in
    another file of package [cmd]; the spec gives
    [{name: string, value: string, description: string}], and the literals
    of datarepo.go set exactly these three fields. *)
Record selectPromptData := mkSelect {
  Name : string;
  Value : string;
  Description : string
}.

(** Go's [==] on the struct: all fields are compared. *)
Definition selectPromptData_eqb (a b : selectPromptData) : bool :=
  String.eqb (Name a) (Name b) &&
  String.eqb (Value a) (Value b) &&
  String.eqb (Description a) (Description b).

(** The identifiers of package [ingest] used by the selectors; their
    declarations are not part of this file of the program, so they are
    parameters of the development. *)
Record IngestConstants := {
  DataformatIDIndividualFiles : string;
  DataformatIDCSVFiles : string;
  DataformatIDDatabaseTable : string;
  DatasourceIDLocalDirectory : string;
  DatasourceIDAWSS3 : string;
  CSVDelimiterCommas : string;
  CSVDelimiterTabs : string
}.

(** Modelled from the spec: [ingest.CSVFilesFormatConfig], declared in
    package [ingest]; the spec gives [{delimiter, header: bool}] and the
    builder assigns [Delimiter] (a string) and [Header]. *)
Record CSVFilesFormatConfig := mkCSV { Delimiter : string; Header : bool }.

(** Modelled from the spec: [ingest.AWSS3LocationConfig], declared in
    package [ingest]; the spec gives [{bucket: string, prefix: string}]. *)
Record AWSS3LocationConfig := mkS3 { Bucket : string; Prefix : string }.

(** The interface [ingest.ManifestConfig] with the values this file stores
    in it: [nil] and pointers to the two config structs. *)
Inductive ManifestConfig :=
| nilConfig
| CSVFilesFormat (c : CSVFilesFormatConfig)
| AWSS3Location (c : AWSS3LocationConfig).

Record IngestManifest := mkManifest {
  selectedDatasourceType : selectPromptData;
  DatasourceFormatConfig : ManifestConfig;
  selectedDatasourceLocation : selectPromptData;
  DatasourceLocationConfig : ManifestConfig
}.

(** [var manifest IngestManifest]: the zero value. *)
Definition zeroSelect : selectPromptData :=
  mkSelect EmptyString EmptyString EmptyString.

Definition zeroManifest : IngestManifest :=
  mkManifest zeroSelect nilConfig zeroSelect nilConfig.

(** ** Collaborator calls and the trace *)

Inductive Event {Sampler SampledSchema : Type} :=
| CallSelectPrompt (title help : string) (options : list selectPromptData)
| CallBoolPrompt (question : string)
| CallTextPrompt (label : string)
| CallEditorPrompt (text syntax : string)
| CallPrintln (line : string)
| CallSamplerFactory (format location : ManifestConfig)
| CallSampleSchema (sampler : Sampler)
| CallPreviewSamples (sampled : SampledSchema) (sampler : Sampler).
Arguments Event : clear implicits.

(** The collaborators.  The interactive ones see the trace so far; the YAML
    library is pure.  A Go result pair [(v, err)] is a sum: the code reads
    [v] only when [err == nil]. *)
Record Collaborators {Sampler SampledSchema SchemaField : Type} := {
  SelectPrompt : list (Event Sampler SampledSchema) ->
                 string -> string -> list selectPromptData ->
                 error + selectPromptData;
  BoolPrompt : list (Event Sampler SampledSchema) -> string -> error + bool;
  TextPrompt : list (Event Sampler SampledSchema) -> string -> error + string;
  EditorPrompt : list (Event Sampler SampledSchema) ->
                 string -> string -> error + string;
  SamplerFactory : list (Event Sampler SampledSchema) ->
                   ManifestConfig -> ManifestConfig -> error + Sampler;
  SampleSchema : list (Event Sampler SampledSchema) ->
                 Sampler -> error + SampledSchema;
  PreviewSamples : list (Event Sampler SampledSchema) ->
                   SampledSchema -> Sampler -> error + string;
  yaml_Marshal_manifest : IngestManifest -> error + string;
  yaml_Marshal_schema : SampledSchema -> error + string;
  yaml_Unmarshal_schema : string -> error + SchemaField;
  (** the [%s] rendering of a [selectPromptData] by package [fmt] *)
  Sprint_s : selectPromptData -> string
}.
Arguments Collaborators : clear implicits.

(** The state a step runs in: the manifest behind the receiver pointer and
    the trace of collaborator calls made so far. *)
Record World {Sampler SampledSchema : Type} := mkWorld {
  manifest : IngestManifest;
  trace : list (Event Sampler SampledSchema)
}.
Arguments World : clear implicits.
Arguments mkWorld {Sampler SampledSchema} _ _.

(** ** A state-and-error monad for the steps *)

Definition M (W A : Type) : Type := W -> (error + A) * W.

Definition ret {W A} (a : A) : M W A := fun w => (inr a, w).
Definition fail {W A} (e : error) : M W A := fun w => (inl e, w).
Definition bind {W A B} (c : M W A) (k : A -> M W B) : M W B :=
  fun w => match c w with
           | (inl e, w') => (inl e, w')
           | (inr a, w') => k a w'
           end.

Notation "x <~ c ; k" := (bind c (fun x => k))
  (at level 20, c at level 100, k at level 200, only parsing).
Notation "'exec' c ; k" := (bind c (fun _ => k))
  (at level 20, c at level 100, k at level 200, only parsing).

Section Wizard.
Context {Sampler SampledSchema SchemaField : Type}.
Variable K : IngestConstants.
Variable env : Collaborators Sampler SampledSchema SchemaField.

Local Abbreviation Ev := (Event Sampler SampledSchema).
Local Abbreviation W := (World Sampler SampledSchema).

(** *** Primitive calls *)

Definition call {A} (ev : Ev) (answer : list Ev -> error + A) : M W A :=
  fun w => (answer (trace w), mkWorld (manifest w) (trace w ++ [ev])).

Definition doSelectPrompt (title help : string)
    (options : list selectPromptData) : M W selectPromptData :=
  call (CallSelectPrompt title help options)
       (fun h => SelectPrompt env h title help options).

Definition doBoolPrompt (question : string) : M W bool :=
  call (CallBoolPrompt question) (fun h => BoolPrompt env h question).

Definition doTextPrompt (label : string) : M W string :=
  call (CallTextPrompt label) (fun h => TextPrompt env h label).

Definition doEditorPrompt (text syntax : string) : M W string :=
  call (CallEditorPrompt text syntax)
       (fun h => EditorPrompt env h text syntax).

Definition Println (line : string) : M W unit :=
  call (CallPrintln line) (fun _ => inr tt).

Definition doSamplerFactory (f l : ManifestConfig) : M W Sampler :=
  call (CallSamplerFactory f l) (fun h => SamplerFactory env h f l).

Definition doSampleSchema (s : Sampler) : M W SampledSchema :=
  call (CallSampleSchema s) (fun h => SampleSchema env h s).

Definition doPreviewSamples (sch : SampledSchema) (s : Sampler)
    : M W string :=
  call (CallPreviewSamples sch s) (fun h => PreviewSamples env h sch s).

(** a pure call returning [(v, err)] *)
Definition lift {A} (r : error + A) : M W A := fun w => (r, w).

Definition getManifest : M W IngestManifest :=
  fun w => (inr (manifest w), w).

Definition setManifest (m : IngestManifest) : M W unit :=
  fun w => (inr tt, mkWorld m (trace w)).

(** *** The selectors *)

Definition IndividualBinaryFilesSelector : selectPromptData :=
  {| Name := "Files (WIP)";
     Value := DataformatIDIndividualFiles K;
     Description := "Individual files on disk or in object storage." |}.

Definition CommaSeparatedValuesFilesSelector : selectPromptData :=
  {| Name := "CSV Files";
     Value := DataformatIDCSVFiles K;
     Description := "Comma-separated value files on disk or in object storage. Other delimiters such as tabs are also supported." |}.

Definition DatabaseTableSelector : selectPromptData :=
  {| Name := "Database Table (WIP)";
     Value := DataformatIDDatabaseTable K;
     Description := "A database table from databases such as PostgreSQL, Snowflake or BigQuery." |}.

Definition LocalDirectorySelector : selectPromptData :=
  {| Name := "Local Directory (WIP)";
     Value := DatasourceIDLocalDirectory K;
     Description := "A directory on your current machine's local filesystem." |}.

Definition AWSS3Selector : selectPromptData :=
  {| Name := "AWS S3";
     Value := DatasourceIDAWSS3 K;
     Description := "An AWS S3 Bucket and prefix, indicating a collection of AWS S3 objects." |}.

Definition CommasSelector : selectPromptData :=
  {| Name := "Commas: ,";
     Value := CSVDelimiterCommas K;
     Description := "The most common type of delimiter in CSV files." |}.

Definition TabsSelector : selectPromptData :=
  {| Name := "Tabs: \t";
     Value := CSVDelimiterTabs K;
     Description := "Values in each column are separated by a tab." |}.

Definition locationSelectors : list selectPromptData :=
  [AWSS3Selector; LocalDirectorySelector].

(** The map literal: entries are stored in the order written, a later
    entry for an equal key replacing the earlier one. *)
Definition allowedSelectors : gmap string (list selectPromptData) :=
  <[Value LocalDirectorySelector :=
      [CommaSeparatedValuesFilesSelector; IndividualBinaryFilesSelector]]>
  (<[Value AWSS3Selector :=
      [CommaSeparatedValuesFilesSelector; IndividualBinaryFilesSelector]]>
   ∅).

(** [allowedSelectors[key]]: Go's index expression on a map yields the
    zero value, the nil slice, for a key that is absent. *)
Definition allowedSelectors_index (key : string) : list selectPromptData :=
  default [] (allowedSelectors !! key).

Definition csvDelimiterSelectors : list selectPromptData :=
  [CommasSelector; TabsSelector].


(** The tutorial text put at the top of the schema editor buffer. *)
Definition dquote : string := String (ascii_of_nat 34) EmptyString.

Definition SchemaEditorTutorialBlurb : string :=
  "# This editor lets you make manual modifications to your field types to help Daft ingest your data.
#
# Daft types and what they mean:
#
#     " ++ dquote ++ "string" ++ dquote ++ ": A simple string
#     " ++ dquote ++ "uri/s3" ++ dquote ++ ": A URL to S3 that starts with s3://...
#     " ++ dquote ++ "uri/http" ++ dquote ++ ": A URL to a HTTP resource that can be retrieved with a GET request
#


".

(** *** Config builders *)

Definition NewCSVFilesFormatConfigFromPrompts : M W CSVFilesFormatConfig :=
  result <~ doSelectPrompt "Delimiter"
              "Columns in each file are delimited by this character"
              csvDelimiterSelectors ;
  headerResult <~ doBoolPrompt "CSV files contain header row" ;
  ret {| Delimiter := Value result; Header := headerResult |}.

Definition NewAWSS3LocationConfigFromPrompts : M W AWSS3LocationConfig :=
  bucket <~ doTextPrompt "AWS S3 Bucket" ;
  prefix <~ doTextPrompt "AWS S3 Prefix" ;
  ret {| Bucket := bucket; Prefix := prefix |}.

(** *** The wizard steps *)

(** Builds the configuration for the DatasourceType. *)
Definition buildDatasourceFormatConfig : M W unit :=
  m <~ getManifest ;
  let selectors := allowedSelectors_index (Value (selectedDatasourceLocation m)) in
  result <~ doSelectPrompt "Data format" "Choose how your data is laid out."
              selectors ;
  if String.eqb (Value result) (Value IndividualBinaryFilesSelector) then
    fail (errors_New "individual binary files not yet supported")
  else if String.eqb (Value result) (Value CommaSeparatedValuesFilesSelector) then
    config <~ NewCSVFilesFormatConfigFromPrompts ;
    m' <~ getManifest ;
    setManifest {| selectedDatasourceType := result;
                   DatasourceFormatConfig := CSVFilesFormat config;
                   selectedDatasourceLocation := selectedDatasourceLocation m';
                   DatasourceLocationConfig := DatasourceLocationConfig m' |}
  else if String.eqb (Value result) (Value DatabaseTableSelector) then
    fail (errors_New "database tables not yet supported")
  else
    fail (fmt_Errorf ("datasource type " ++ Sprint_s env result ++ " not supported")).

Definition buildDatasourceLocationConfigForSelectedLocation
    (location : selectPromptData) : M W ManifestConfig :=
  if selectPromptData_eqb location LocalDirectorySelector then
    fail (errors_New "local directories not yet supported")
  else if selectPromptData_eqb location AWSS3Selector then
    config <~ NewAWSS3LocationConfigFromPrompts ;
    ret (AWSS3Location config)
  else
    fail (fmt_Errorf ("datasource location " ++ Sprint_s env location ++ " not supported")).

(** Builds the configuration for the DatasourceLocation. *)
Definition buildDatasourceLocationConfig : M W unit :=
  result <~ doSelectPrompt "Data Source"
              "Specify the source for importing data from."
              locationSelectors ;
  config <~ buildDatasourceLocationConfigForSelectedLocation result ;
  m <~ getManifest ;
  setManifest {| selectedDatasourceType := selectedDatasourceType m;
                 DatasourceFormatConfig := DatasourceFormatConfig m;
                 selectedDatasourceLocation := result;
                 DatasourceLocationConfig := config |}.

Definition confirmDatasourceConfigs : M W unit :=
  m <~ getManifest ;
  y <~ lift (yaml_Marshal_manifest env m) ;
  exec Println "Data Source Configurations:" ;
  exec Println EmptyString ;
  exec Println y ;
  result <~ doBoolPrompt "Confirm and detect schema" ;
  if negb result then
    fail (errors_New "user cancelled data source configurations")
  else ret tt.

(** The first half of [buildDatarepoSchema], up to the text that comes back
    from the editor. *)
Definition sampleAndEdit : M W string :=
  m <~ getManifest ;
  sampler <~ doSamplerFactory (DatasourceFormatConfig m)
                              (DatasourceLocationConfig m) ;
  sampledSchema <~ doSampleSchema sampler ;
  tablePreview <~ doPreviewSamples sampledSchema sampler ;
  yamlSchema <~ lift (yaml_Marshal_schema env sampledSchema) ;
  doEditorPrompt (SchemaEditorTutorialBlurb ++ tablePreview ++ yamlSchema) "yaml".

Definition buildDatarepoSchema : M W unit :=
  m <~ getManifest ;
  sampler <~ doSamplerFactory (DatasourceFormatConfig m)
                              (DatasourceLocationConfig m) ;
  sampledSchema <~ doSampleSchema sampler ;
  tablePreview <~ doPreviewSamples sampledSchema sampler ;
  yamlSchema <~ lift (yaml_Marshal_schema env sampledSchema) ;
  finalizedSchemaStr <~ doEditorPrompt
      (SchemaEditorTutorialBlurb ++ tablePreview ++ yamlSchema) "yaml" ;
  recordField <~ lift (yaml_Unmarshal_schema env finalizedSchemaStr) ;
  exec Println "Final Schema:" ;
  exec Println finalizedSchemaStr ;
  confirmSchema <~ doBoolPrompt "Confirm finalized schema" ;
  if negb confirmSchema then
    fail (errors_New "aborted finalizing schema")
  else ret tt.

(** *** The driver *)

(** How the command ends: [cobra.CheckErr(err)] leaves the process with
    the error when [err != nil]; otherwise [Run] returns. *)
Inductive Outcome := Returned | Exited (e : error).

(** [cobra.CheckErr(err)] followed by the rest of [Run]. *)
Definition CheckErr (r : (error + unit) * W) (rest : W -> Outcome * W)
    : Outcome * W :=
  match r with
  | (inl e, w) => (Exited e, w)
  | (inr _, w) => rest w
  end.

(** [ingestCmd.Run], started after the calls recorded in [history]. *)
Definition ingestCmd_Run (history : list Ev) : Outcome * W :=
  let w0 := mkWorld zeroManifest history in
  match Println EmptyString w0 with
  | (_, w1) =>
    CheckErr (buildDatasourceLocationConfig w1) (fun w2 =>
    CheckErr (buildDatasourceFormatConfig w2) (fun w3 =>
    CheckErr (confirmDatasourceConfigs w3) (fun w4 =>
    CheckErr (buildDatarepoSchema w4) (fun w5 =>
    (Returned, w5)))))
  end.

(** *** Names for the calls the steps make *)

Definition formatPromptCall (options : list selectPromptData) : Ev :=
  CallSelectPrompt "Data format" "Choose how your data is laid out." options.

Definition locationPromptCall : Ev :=
  CallSelectPrompt "Data Source" "Specify the source for importing data from."
                   locationSelectors.

Definition delimiterPromptCall : Ev :=
  CallSelectPrompt "Delimiter"
                   "Columns in each file are delimited by this character"
                   csvDelimiterSelectors.

Definition confirmationPrintlns (y : string) : list Ev :=
  [CallPrintln "Data Source Configurations:"; CallPrintln EmptyString;
   CallPrintln y].

(** *** Where a run of the driver stands *)

(** The run started after [history] gets to the confirmation step in
    world [w]: the location and format steps succeeded. *)
Definition reachesConfirmation (history : list Ev) (w : W) : Prop :=
  exists w2,
    buildDatasourceLocationConfig
      (mkWorld zeroManifest (history ++ [CallPrintln EmptyString])) = (inr tt, w2) /\
    buildDatasourceFormatConfig w2 = (inr tt, w).

(** The run started after [history] gets to the schema step in world [w]. *)
Definition reachesSchemaStep (history : list Ev) (w : W) : Prop :=
  exists w3, reachesConfirmation history w3 /\
             confirmDatasourceConfigs w3 = (inr tt, w).

(** The user said no at the manifest confirmation of [w]. *)
Definition declinedManifest (w : W) : Prop :=
  exists y, yaml_Marshal_manifest env (manifest w) = inr y /\
    BoolPrompt env (trace w ++ confirmationPrintlns y)
               "Confirm and detect schema" = inr false.

(** The user said no at the schema confirmation of the step run in [w]. *)
Definition declinedSchema (w : W) : Prop :=
  exists text w1 record,
    sampleAndEdit w = (inr text, w1) /\
    yaml_Unmarshal_schema env text = inr record /\
    BoolPrompt env (trace w1 ++ [CallPrintln "Final Schema:"; CallPrintln text])
               "Confirm finalized schema" = inr false.

(** The user picked the individual-files format at the format prompt of [w]. *)
Definition pickedIndividualFiles (w : W) : Prop :=
  exists r,
    SelectPrompt env (trace w) "Data format" "Choose how your data is laid out."
      (allowedSelectors_index (Value (selectedDatasourceLocation (manifest w))))
      = inr r /\
    Value r = DataformatIDIndividualFiles K.

End Wizard.

(** The world a step leaves behind, and what it returned. *)
Definition result {W A} (r : (error + A) * W) : error + A := fst r.
Definition after {W A} (r : (error + A) * W) : W := snd r.

(** [strings.Contains(hay, needle)]. *)
Fixpoint contains (needle hay : string) : bool :=
  String.prefix needle hay ||
  match hay with
  | EmptyString => false
  | String _ hay' => contains needle hay'
  end.

(** Calls into the sampling engine. *)
Definition isSamplingCall {Sampler SampledSchema}
    (ev : Event Sampler SampledSchema) : bool :=
  match ev with
  | CallSamplerFactory _ _ | CallSampleSchema _ | CallPreviewSamples _ _ => true
  | _ => false
  end.

Definition isEditorCall {Sampler SampledSchema}
    (ev : Event Sampler SampledSchema) : bool :=
  match ev with CallEditorPrompt _ _ => true | _ => false end.

(** ** The order of the calls *)

(** What kind of call an event is: the collaborator, and for a prompt the
    title, question or label it was shown with. *)
Inductive CallKind :=
| KSelect (title : string)
| KBool (question : string)
| KText (label : string)
| KEditor
| KPrintln
| KSamplerFactory
| KSampleSchema
| KPreviewSamples.

Definition kindOf {Sampler SampledSchema}
    (ev : Event Sampler SampledSchema) : CallKind :=
  match ev with
  | CallSelectPrompt title _ _ => KSelect title
  | CallBoolPrompt question => KBool question
  | CallTextPrompt label => KText label
  | CallEditorPrompt _ _ => KEditor
  | CallPrintln _ => KPrintln
  | CallSamplerFactory _ _ => KSamplerFactory
  | CallSampleSchema _ => KSampleSchema
  | CallPreviewSamples _ _ => KPreviewSamples
  end.

(** The calls of each step when nothing fails, in the order of the source. *)
Definition locationStepCalls : list CallKind :=
  [KSelect "Data Source"; KText "AWS S3 Bucket"; KText "AWS S3 Prefix"].

Definition formatStepCalls : list CallKind :=
  [KSelect "Data format"; KSelect "Delimiter";
   KBool "CSV files contain header row"].

Definition confirmationStepCalls : list CallKind :=
  [KPrintln; KPrintln; KPrintln; KBool "Confirm and detect schema"].

Definition schemaStepCalls : list CallKind :=
  [KSamplerFactory; KSampleSchema; KPreviewSamples; KEditor;
   KPrintln; KPrintln; KBool "Confirm finalized schema"].

Definition wizardCalls : list CallKind :=
  (KPrintln :: locationStepCalls ++ formatStepCalls ++
   confirmationStepCalls ++ schemaStepCalls)%list.

(** A single-choice prompt that answers with one of the options it was
    given, as a menu does. *)
Definition answersFromOptions {Sampler SampledSchema SchemaField}
    (env : Collaborators Sampler SampledSchema SchemaField) : Prop :=
  forall history title help options r,
    SelectPrompt env history title help options = inr r -> r ∈ options.

(** ** Where an error comes from *)




(** The same collaborators, with every successfully parsed schema record
    replaced by its image under [f]. *)
Definition withParsedRecord {Sampler SampledSchema F F' : Type} (f : F -> F')
    (env : Collaborators Sampler SampledSchema F)
    : Collaborators Sampler SampledSchema F' := {|
  SelectPrompt := SelectPrompt env;
  BoolPrompt := BoolPrompt env;
  TextPrompt := TextPrompt env;
  EditorPrompt := EditorPrompt env;
  SamplerFactory := SamplerFactory env;
  SampleSchema := SampleSchema env;
  PreviewSamples := PreviewSamples env;
  yaml_Marshal_manifest := yaml_Marshal_manifest env;
  yaml_Marshal_schema := yaml_Marshal_schema env;
  yaml_Unmarshal_schema := fun text =>
    match yaml_Unmarshal_schema env text with
    | inl e => inl e
    | inr record => inr (f record)
    end;
  Sprint_s := Sprint_s env
|}.

(** ** Two readings of the specification, kept for comparison with the code *)

(** "If the table has no entry for the chosen location's value, the format
    step fails at the lookup": an error is returned and nothing else has
    happened. *)
Definition missing_table_entry_is_fatal : Prop :=
  forall (K : IngestConstants) (env : Collaborators unit string string)
         (w : World unit string),
    allowedSelectors K !! Value (selectedDatasourceLocation (manifest w)) = None ->
    exists e, buildDatasourceFormatConfig K env w = (inl e, w).

(** "Cancellation is an error type of its own": some classification of
    errors by their type holds of the error returned after a no at either
    confirmation and fails of the unsupported-feature error. *)
Definition cancellation_is_an_error_type : Prop :=
  exists isCancellation : error -> bool,
    (forall e1 e2, dynType e1 = dynType e2 ->
                   isCancellation e1 = isCancellation e2) /\
    (forall (env : Collaborators unit string string) w e w',
       declinedManifest env w ->
       confirmDatasourceConfigs env w = (inl e, w') ->
       isCancellation e = true) /\
    (forall (env : Collaborators unit string string) w e w',
       declinedSchema env w ->
       buildDatarepoSchema env w = (inl e, w') ->
       isCancellation e = true) /\
    (forall K (env : Collaborators unit string string) w e w',
       pickedIndividualFiles K env w ->
       buildDatasourceFormatConfig K env w = (inl e, w') ->
       isCancellation e = false).

(** * Concrete runs

    A set of constants and a family of scripted collaborators, used to run
    the steps on explicit inputs. *)

Module Scenario.

Definition constants : IngestConstants := {|
  DataformatIDIndividualFiles := "individual_files";
  DataformatIDCSVFiles := "csv_files";
  DataformatIDDatabaseTable := "database_table";
  DatasourceIDLocalDirectory := "local_directory";
  DatasourceIDAWSS3 := "aws_s3";
  CSVDelimiterCommas := ",";
  CSVDelimiterTabs := String (ascii_of_nat 9) EmptyString
|}.

(** What the scripted user does: the option picked at each single-choice
    prompt (by title), the answer to each yes/no question, and what the
    YAML parser makes of the edited schema. *)
Record Script := {
  pick : string -> error + selectPromptData;
  answer : string -> error + bool;
  parsed : string -> error + string
}.

Definition render (d : selectPromptData) : string :=
  "{" ++ Name d ++ " " ++ Value d ++ " " ++ Description d ++ "}".

Definition scripted (s : Script) : Collaborators unit string string := {|
  SelectPrompt := fun _ title _ _ => pick s title;
  BoolPrompt := fun _ question => answer s question;
  TextPrompt := fun _ label =>
    inr (if String.eqb label "AWS S3 Bucket" then "my-bucket" else "data/");
  EditorPrompt := fun _ text _ => inr text;
  SamplerFactory := fun _ _ _ => inr tt;
  SampleSchema := fun _ _ => inr "fields: []";
  PreviewSamples := fun _ _ _ => inr "# (no rows)";
  yaml_Marshal_manifest := fun _ => inr "datasourceType: {}";
  yaml_Marshal_schema := fun sch => inr sch;
  yaml_Unmarshal_schema := parsed s;
  Sprint_s := render
|}.

Definition pickByTitle (location format : selectPromptData) (title : string)
    : error + selectPromptData :=
  if String.eqb title "Data Source" then inr location
  else if String.eqb title "Data format" then inr format
  else inr (CommasSelector constants).

Definition yesExcept (question : string) (q : string) : error + bool :=
  inr (negb (String.eqb q question)).

(** AWS S3, CSV files, every question answered yes. *)
Definition csvOnS3 : Script := {|
  pick := pickByTitle (AWSS3Selector constants)
                      (CommaSeparatedValuesFilesSelector constants);
  answer := fun _ => inr true;
  parsed := fun text => inr text
|}.

(** AWS S3, then the individual-files format. *)
Definition filesOnS3 : Script := {|
  pick := pickByTitle (AWSS3Selector constants)
                      (IndividualBinaryFilesSelector constants);
  answer := fun _ => inr true;
  parsed := fun text => inr text
|}.

(** The local directory location. *)
Definition localDirectory : Script := {|
  pick := pickByTitle (LocalDirectorySelector constants)
                      (CommaSeparatedValuesFilesSelector constants);
  answer := fun _ => inr true;
  parsed := fun text => inr text
|}.

(** As [csvOnS3], answering no to the manifest confirmation. *)
Definition declineManifest : Script := {|
  pick := pick csvOnS3;
  answer := yesExcept "Confirm and detect schema";
  parsed := fun text => inr text
|}.

(** As [csvOnS3], answering no to the schema confirmation. *)
Definition declineSchema : Script := {|
  pick := pick csvOnS3;
  answer := yesExcept "Confirm finalized schema";
  parsed := fun text => inr text
|}.

(** As [csvOnS3], with an edited schema the YAML parser rejects. *)
Definition brokenEdit : Script := {|
  pick := pick csvOnS3;
  answer := fun _ => inr true;
  parsed := fun _ => inl (mkError "*errors.errorString"
                                  "yaml: line 1: did not find expected key")
|}.

Definition start : World unit string := mkWorld zeroManifest [].

(** The world once AWS S3 has been chosen and configured. *)
Definition s3Chosen : World unit string :=
  mkWorld {| selectedDatasourceType := zeroSelect;
             DatasourceFormatConfig := nilConfig;
             selectedDatasourceLocation := AWSS3Selector constants;
             DatasourceLocationConfig :=
               AWSS3Location {| Bucket := "my-bucket"; Prefix := "data/" |} |}
          [].

(** The world once the CSV format has been configured as well. *)
Definition csvChosen : World unit string :=
  mkWorld {| selectedDatasourceType := CommaSeparatedValuesFilesSelector constants;
             DatasourceFormatConfig :=
               CSVFilesFormat {| Delimiter := ","; Header := true |};
             selectedDatasourceLocation := AWSS3Selector constants;
             DatasourceLocationConfig :=
               AWSS3Location {| Bucket := "my-bucket"; Prefix := "data/" |} |}
          [].

(** The world in which a scripted run gets to the confirmation step, and
    the one in which it gets to the schema step. *)
Definition atConfirmation (s : Script) : World unit string :=
  after (buildDatasourceFormatConfig constants (scripted s)
    (after (buildDatasourceLocationConfig constants (scripted s)
       (mkWorld zeroManifest [CallPrintln EmptyString])))).

Definition atSchemaStep (s : Script) : World unit string :=
  after (confirmDatasourceConfigs (scripted s) (atConfirmation s)).

(** The prompt engine is interrupted at the prompt titled [title]. *)
Definition interruptedAt (title : string) : Script := {|
  pick := fun t =>
    if String.eqb t title then inl (mkError "*errors.errorString" "^C")
    else pick csvOnS3 t;
  answer := fun _ => inr true;
  parsed := fun text => inr text
|}.

(** As [scripted], with the text prompt labelled [label] interrupted. *)
Definition textInterruptedAt (label : string) (s : Script)
    : Collaborators unit string string := {|
  SelectPrompt := SelectPrompt (scripted s);
  BoolPrompt := BoolPrompt (scripted s);
  TextPrompt := fun history l =>
    if String.eqb l label then inl (mkError "*errors.errorString" "^C")
    else TextPrompt (scripted s) history l;
  EditorPrompt := EditorPrompt (scripted s);
  SamplerFactory := SamplerFactory (scripted s);
  SampleSchema := SampleSchema (scripted s);
  PreviewSamples := PreviewSamples (scripted s);
  yaml_Marshal_manifest := yaml_Marshal_manifest (scripted s);
  yaml_Marshal_schema := yaml_Marshal_schema (scripted s);
  yaml_Unmarshal_schema := yaml_Unmarshal_schema (scripted s);
  Sprint_s := render
|}.

(** As [scripted], with a YAML library that cannot serialize the manifest. *)
Definition unserializable (s : Script) : Collaborators unit string string := {|
  SelectPrompt := SelectPrompt (scripted s);
  BoolPrompt := BoolPrompt (scripted s);
  TextPrompt := TextPrompt (scripted s);
  EditorPrompt := EditorPrompt (scripted s);
  SamplerFactory := SamplerFactory (scripted s);
  SampleSchema := SampleSchema (scripted s);
  PreviewSamples := PreviewSamples (scripted s);
  yaml_Marshal_manifest := fun _ =>
    inl (mkError "*errors.errorString" "yaml: cannot marshal");
  yaml_Marshal_schema := yaml_Marshal_schema (scripted s);
  yaml_Unmarshal_schema := yaml_Unmarshal_schema (scripted s);
  Sprint_s := render
|}.

(** As [scripted], with a menu: a single-choice prompt answers with the
    scripted pick only when it is among the options shown, and fails
    otherwise. *)
Definition menu (s : Script) : Collaborators unit string string := {|
  SelectPrompt := fun _ title _ options =>
    match pick s title with
    | inl e => inl e
    | inr r =>
      if existsb (selectPromptData_eqb r) options then inr r
      else inl (mkError "*errors.errorString" "nothing to select")
    end;
  BoolPrompt := BoolPrompt (scripted s);
  TextPrompt := TextPrompt (scripted s);
  EditorPrompt := EditorPrompt (scripted s);
  SamplerFactory := SamplerFactory (scripted s);
  SampleSchema := SampleSchema (scripted s);
  PreviewSamples := PreviewSamples (scripted s);
  yaml_Marshal_manifest := yaml_Marshal_manifest (scripted s);
  yaml_Marshal_schema := yaml_Marshal_schema (scripted s);
  yaml_Unmarshal_schema := yaml_Unmarshal_schema (scripted s);
  Sprint_s := render
|}.

End Scenario.

(** * Proof automation *)

(** Unfolding the monad and the steps. *)
Ltac unfold_monad :=
  unfold bind, call, ret, fail, lift, getManifest, setManifest,
         result, after in *.

Ltac unfold_steps :=
  unfold buildDatasourceFormatConfig, buildDatasourceLocationConfig,
         buildDatasourceLocationConfigForSelectedLocation,
         confirmDatasourceConfigs, buildDatarepoSchema,
         NewCSVFilesFormatConfigFromPrompts,
         NewAWSS3LocationConfigFromPrompts,
         doSelectPrompt, doBoolPrompt, doTextPrompt, doEditorPrompt,
         doSamplerFactory, doSampleSchema, doPreviewSamples, Println in *;
  unfold_monad.

(** Case analysis on every collaborator answer, then the explicit list of
    calls the step appended. *)
Ltac explicit_trace :=
  unfold_steps; cbn;
  repeat case_match; simplify_eq; cbn; rewrite <- ?app_assoc; cbn;
  eexists; (split; [reflexivity|]); repeat constructor.


(** * Properties *)

Section Properties.
Context {Sampler SampledSchema SchemaField : Type}.
Variable K : IngestConstants.
Variable env : Collaborators Sampler SampledSchema SchemaField.

Local Abbreviation Ev := (Event Sampler SampledSchema).
Local Abbreviation W := (World Sampler SampledSchema).

(** ** The compatibility table *)

Lemma allowedSelectors_lookup (key : string) :
  allowedSelectors K !! key =
    if bool_decide (key = DatasourceIDLocalDirectory K ∨
                    key = DatasourceIDAWSS3 K)
    then Some [CommaSeparatedValuesFilesSelector K;
               IndividualBinaryFilesSelector K]
    else None.
Proof.
  unfold allowedSelectors; simpl.
  rewrite !lookup_insert, lookup_empty.
  destruct (decide (DatasourceIDLocalDirectory K = key)) as [<-|Hl].
  { rewrite bool_decide_eq_true_2; [reflexivity | now left]. }
  destruct (decide (DatasourceIDAWSS3 K = key)) as [<-|Ha].
  { rewrite bool_decide_eq_true_2; [reflexivity | now right]. }
  rewrite bool_decide_eq_false_2; [reflexivity | intros [->| ->]; congruence].
Qed.

Lemma allowedSelectors_index_present (key : string) l :
  allowedSelectors K !! key = Some l -> allowedSelectors_index K key = l.
Proof. unfold allowedSelectors_index. now intros ->. Qed.

Lemma allowedSelectors_index_absent (key : string) :
  allowedSelectors K !! key = None -> allowedSelectors_index K key = [].
Proof. unfold allowedSelectors_index. now intros ->. Qed.

Lemma allowedSelectors_AWSS3 :
  allowedSelectors_index K (Value (AWSS3Selector K)) =
    [CommaSeparatedValuesFilesSelector K; IndividualBinaryFilesSelector K].
Proof.
  apply allowedSelectors_index_present. rewrite allowedSelectors_lookup.
  rewrite bool_decide_eq_true_2; [reflexivity | now right].
Qed.

(** ** Frame properties of the steps *)

(** The format step touches the manifest only when it succeeds. *)
Lemma buildDatasourceFormatConfig_error_frame (w w' : W) (e : error) :
  buildDatasourceFormatConfig K env w = (inl e, w') ->
  manifest w' = manifest w.
Proof.
  unfold_steps; cbn.
  intros H. repeat case_match; simplify_eq; reflexivity.
Qed.

Lemma selectPromptData_eqb_eq (a b : selectPromptData) :
  selectPromptData_eqb a b = true <-> a = b.
Proof.
  unfold selectPromptData_eqb. rewrite !andb_true_iff, !String.eqb_eq.
  destruct a, b; simpl; split; [intros [[-> ->] ->] | intros [= -> -> ->]]; auto.
Qed.

Lemma selectPromptData_eqb_refl (a : selectPromptData) :
  selectPromptData_eqb a a = true.
Proof. now apply selectPromptData_eqb_eq. Qed.

(** The location step touches the manifest only when it succeeds. *)
Lemma buildDatasourceLocationConfig_error_frame (w w' : W) (e : error) :
  buildDatasourceLocationConfig K env w = (inl e, w') ->
  manifest w' = manifest w.
Proof.
  unfold_steps; cbn.
  intros H. repeat case_match; simplify_eq; reflexivity.
Qed.

(** ** The format-selection step *)

(** C4: with location AWS S3, choosing the individual-files format makes
    the format step fail with "individual binary files not yet supported";
    and whenever the format step returns an error, the manifest's
    [selectedDatasourceType] and [DatasourceFormatConfig] are the ones it
    started with. *)
Theorem format_step_individual_files_unsupported (w : W) :
  (selectedDatasourceLocation (manifest w) = AWSS3Selector K ->
   SelectPrompt env (trace w) "Data format" "Choose how your data is laid out."
     [CommaSeparatedValuesFilesSelector K; IndividualBinaryFilesSelector K]
     = inr (IndividualBinaryFilesSelector K) ->
   buildDatasourceFormatConfig K env w =
     (inl (errors_New "individual binary files not yet supported"),
      mkWorld (manifest w)
        (trace w ++
         [formatPromptCall [CommaSeparatedValuesFilesSelector K;
                            IndividualBinaryFilesSelector K]]))) /\
  (forall e w', buildDatasourceFormatConfig K env w = (inl e, w') ->
     selectedDatasourceType (manifest w') = selectedDatasourceType (manifest w) /\
     DatasourceFormatConfig (manifest w') = DatasourceFormatConfig (manifest w)).
Proof.
  split.
  - intros Hloc Hpick.
    unfold buildDatasourceFormatConfig, doSelectPrompt, formatPromptCall.
    unfold_monad; cbn.
    rewrite Hloc, allowedSelectors_AWSS3, Hpick; cbn.
    now rewrite String.eqb_refl.
  - intros e w' H.
    apply buildDatasourceFormatConfig_error_frame in H. now rewrite H.
Qed.

(** C7: when the table has an entry for the chosen location's value, the
    format prompt is called with that entry as its option list, the entry
    being CSV files then individual files; the answer the step acts on is
    the answer to that call, and the step shows no second format prompt. *)
Theorem format_prompt_offers_the_table_entry (w : W)
    (l : list selectPromptData) :
  allowedSelectors K !! Value (selectedDatasourceLocation (manifest w)) = Some l ->
  l = [CommaSeparatedValuesFilesSelector K; IndividualBinaryFilesSelector K] /\
  (forall e,
     SelectPrompt env (trace w) "Data format"
       "Choose how your data is laid out." l = inl e ->
     buildDatasourceFormatConfig K env w =
       (inl e, mkWorld (manifest w) (trace w ++ [formatPromptCall l]))) /\
  exists rest,
    trace (after (buildDatasourceFormatConfig K env w)) =
      (trace w ++ formatPromptCall l :: rest)%list /\
    Forall (fun ev => forall options, ev <> formatPromptCall options) rest.
Proof.
  intros Hl. split; [|split].
  - rewrite allowedSelectors_lookup in Hl. case_bool_decide; congruence.
  - intros e He.
    unfold buildDatasourceFormatConfig, doSelectPrompt, formatPromptCall.
    unfold_monad; cbn.
    now rewrite (allowedSelectors_index_present _ _ Hl), He.
  - unfold_steps; cbn. unfold formatPromptCall.
    rewrite (allowedSelectors_index_present _ _ Hl).
    repeat case_match; simplify_eq; cbn; rewrite <- ?app_assoc; cbn;
      eexists; (split; [reflexivity|]);
      repeat constructor; intros options; discriminate.
Qed.

(** ** The location-selection step *)

(** C9: choosing the local directory makes the location step fail with
    "local directories not yet supported"; and whenever the location step
    returns an error, the manifest's [selectedDatasourceLocation] and
    [DatasourceLocationConfig] are the ones it started with. *)
Theorem location_step_local_directory_unsupported (w : W) :
  (SelectPrompt env (trace w) "Data Source"
     "Specify the source for importing data from." (locationSelectors K)
     = inr (LocalDirectorySelector K) ->
   exists e,
     buildDatasourceLocationConfig K env w =
       (inl e, mkWorld (manifest w) (trace w ++ [locationPromptCall K])) /\
     e = errors_New "local directories not yet supported" /\
     contains "local directories not yet supported" (Error e) = true) /\
  (forall e w', buildDatasourceLocationConfig K env w = (inl e, w') ->
     selectedDatasourceLocation (manifest w') =
       selectedDatasourceLocation (manifest w) /\
     DatasourceLocationConfig (manifest w') =
       DatasourceLocationConfig (manifest w)).
Proof.
  split.
  - intros Hpick. eexists. split; [|split; [reflexivity|reflexivity]].
    unfold buildDatasourceLocationConfig,
           buildDatasourceLocationConfigForSelectedLocation,
           doSelectPrompt, locationPromptCall.
    unfold_monad; cbn. rewrite Hpick; cbn.
    now rewrite selectPromptData_eqb_refl.
  - intros e w' H.
    apply buildDatasourceLocationConfig_error_frame in H. now rewrite H.
Qed.

(** C1 (as amended): when the table has no entry for the chosen location's
    value, indexing it gives the empty list and the step goes on to call the
    format prompt with no options; a failure of that prompt is returned as
    it is, and an answer carrying the CSV value is acted on as usual. *)
Theorem format_step_missing_entry_prompts_with_no_options (w : W) :
  allowedSelectors K !! Value (selectedDatasourceLocation (manifest w)) = None ->
  let w1 := mkWorld (manifest w) (trace w ++ [formatPromptCall []]) in
  allowedSelectors_index K (Value (selectedDatasourceLocation (manifest w))) = [] /\
  (exists rest,
     trace (after (buildDatasourceFormatConfig K env w)) =
       (trace w ++ formatPromptCall [] :: rest)%list) /\
  (forall e,
     SelectPrompt env (trace w) "Data format"
       "Choose how your data is laid out." [] = inl e ->
     buildDatasourceFormatConfig K env w = (inl e, w1)) /\
  (forall r c w2,
     SelectPrompt env (trace w) "Data format"
       "Choose how your data is laid out." [] = inr r ->
     Value r <> DataformatIDIndividualFiles K ->
     Value r = DataformatIDCSVFiles K ->
     NewCSVFilesFormatConfigFromPrompts K env w1 = (inr c, w2) ->
     buildDatasourceFormatConfig K env w =
       (inr tt,
        mkWorld {| selectedDatasourceType := r;
                   DatasourceFormatConfig := CSVFilesFormat c;
                   selectedDatasourceLocation :=
                     selectedDatasourceLocation (manifest w2);
                   DatasourceLocationConfig :=
                     DatasourceLocationConfig (manifest w2) |}
                (trace w2))).
Proof.
  intros Habs w1.
  pose proof (allowedSelectors_index_absent _ Habs) as Hidx.
  split; [exact Hidx|]. split; [|split].
  - unfold_steps; cbn. unfold formatPromptCall. rewrite Hidx.
    repeat case_match; simplify_eq; cbn; rewrite <- ?app_assoc; cbn;
      eexists; reflexivity.
  - intros e He. subst w1.
    unfold buildDatasourceFormatConfig, doSelectPrompt, formatPromptCall.
    unfold_monad; cbn. now rewrite Hidx, He.
  - intros r c w2 Hr Hne Hcsv. subst w1.
    unfold buildDatasourceFormatConfig, doSelectPrompt, formatPromptCall.
    generalize (NewCSVFilesFormatConfigFromPrompts K env); intros build Hbuild.
    unfold_monad; cbn in *. rewrite Hidx, Hr; cbn.
    apply String.eqb_neq in Hne. rewrite Hne.
    rewrite Hcsv, String.eqb_refl. now rewrite Hbuild.
Qed.

(** The branch of the format step is decided by the [Value] of the answer
    alone: any answer carrying the individual-files value is refused. *)
Lemma format_step_branches_on_value (w : W) (r : selectPromptData) :
  SelectPrompt env (trace w) "Data format" "Choose how your data is laid out."
    (allowedSelectors_index K (Value (selectedDatasourceLocation (manifest w))))
    = inr r ->
  Value r = DataformatIDIndividualFiles K ->
  result (buildDatasourceFormatConfig K env w) =
    inl (errors_New "individual binary files not yet supported").
Proof.
  intros Hr Hv. unfold buildDatasourceFormatConfig, doSelectPrompt.
  unfold_monad; cbn. rewrite Hr; cbn. now rewrite Hv, String.eqb_refl.
Qed.

(** C3: the location dispatch compares the whole option.  An option that
    carries the AWS S3 value under another name and description is sent to
    the default branch and refused before any prompt, while [AWSS3Selector],
    with the same value, is sent to the S3 builder, which asks for the
    bucket. *)
Theorem location_dispatch_compares_whole_option (w : W) :
  let renamed := {| Name := "S3"; Value := DatasourceIDAWSS3 K;
                    Description := EmptyString |} in
  Value renamed = Value (AWSS3Selector K) /\
  buildDatasourceLocationConfigForSelectedLocation K env renamed w =
    (inl (fmt_Errorf ("datasource location " ++ Sprint_s env renamed
                      ++ " not supported")), w) /\
  exists rest,
    trace (after (buildDatasourceLocationConfigForSelectedLocation
                    K env (AWSS3Selector K) w)) =
      (trace w ++ CallTextPrompt "AWS S3 Bucket" :: rest)%list.
Proof.
  cbn zeta. split; [reflexivity|]. split.
  - reflexivity.
  - unfold buildDatasourceLocationConfigForSelectedLocation.
    replace (selectPromptData_eqb (AWSS3Selector K) (LocalDirectorySelector K))
      with false by reflexivity.
    rewrite selectPromptData_eqb_refl.
    unfold_steps; cbn.
    repeat case_match; simplify_eq; cbn; rewrite <- ?app_assoc; cbn;
      eexists; reflexivity.
Qed.

(** ** What each step adds to the trace *)

Lemma location_step_no_sampling (w : W) :
  exists evs,
    trace (after (buildDatasourceLocationConfig K env w)) = (trace w ++ evs)%list /\
    Forall (fun ev => isSamplingCall ev = false) evs.
Proof. explicit_trace. Qed.

Lemma format_step_no_sampling (w : W) :
  exists evs,
    trace (after (buildDatasourceFormatConfig K env w)) = (trace w ++ evs)%list /\
    Forall (fun ev => isSamplingCall ev = false) evs.
Proof. explicit_trace. Qed.

Lemma confirmation_step_no_sampling (w : W) :
  exists evs,
    trace (after (confirmDatasourceConfigs env w)) = (trace w ++ evs)%list /\
    Forall (fun ev => isSamplingCall ev = false) evs.
Proof.
  unfold_steps; cbn.
  repeat case_match; simplify_eq; cbn; rewrite <- ?app_assoc; cbn;
    try (eexists; (split; [reflexivity|]); repeat constructor).
  all: exists []; rewrite app_nil_r; split; [reflexivity | constructor].
Qed.

(** A run that gets to the confirmation step has made no sampling call. *)
Lemma reachesConfirmation_no_sampling (history : list Ev) (w : W) :
  reachesConfirmation K env history w ->
  exists evs, trace w = (history ++ evs)%list /\
              Forall (fun ev => isSamplingCall ev = false) evs.
Proof.
  intros (w2 & Hloc & Hfmt).
  destruct (location_step_no_sampling
              (mkWorld zeroManifest (history ++ [CallPrintln EmptyString])))
    as (evs1 & Ht1 & Hs1).
  destruct (format_step_no_sampling w2) as (evs2 & Ht2 & Hs2).
  rewrite Hloc in Ht1. rewrite Hfmt in Ht2. cbn in Ht1, Ht2.
  exists (CallPrintln EmptyString :: evs1 ++ evs2)%list. split.
  - rewrite Ht2, Ht1. now rewrite <- !app_assoc.
  - constructor; [reflexivity|]. now apply Forall_app.
Qed.

(** The driver hands a run that got to the confirmation step over to that
    step, and then to the schema step. *)
Lemma ingestCmd_Run_from_confirmation (history : list Ev) (w : W) :
  reachesConfirmation K env history w ->
  ingestCmd_Run K env history =
    CheckErr (confirmDatasourceConfigs env w) (fun w4 =>
    CheckErr (buildDatarepoSchema env w4) (fun w5 => (Returned, w5))).
Proof.
  intros (w2 & Hloc & Hfmt). unfold ingestCmd_Run.
  change (Println EmptyString (mkWorld zeroManifest history))
    with (@inr error unit tt,
          mkWorld (Sampler:=Sampler) (SampledSchema:=SampledSchema)
            zeroManifest (history ++ [CallPrintln EmptyString])).
  cbn iota. rewrite Hloc; cbn [CheckErr]. now rewrite Hfmt.
Qed.

Lemma ingestCmd_Run_from_schema_step (history : list Ev) (w : W) :
  reachesSchemaStep K env history w ->
  ingestCmd_Run K env history =
    CheckErr (buildDatarepoSchema env w) (fun w5 => (Returned, w5)).
Proof.
  intros (w3 & Hreach & Hconf).
  rewrite (ingestCmd_Run_from_confirmation _ _ Hreach), Hconf. reflexivity.
Qed.

(** The schema step is its first half followed by parse, display and
    confirmation. *)
Lemma buildDatarepoSchema_split (w : W) :
  buildDatarepoSchema env w =
    match sampleAndEdit env w with
    | (inl e, w1) => (inl e, w1)
    | (inr text, w1) =>
      match yaml_Unmarshal_schema env text with
      | inl e => (inl e, w1)
      | inr _ =>
        let shown := (trace w1 ++ [CallPrintln "Final Schema:";
                                   CallPrintln text])%list in
        let w2 := mkWorld (manifest w1)
                    (shown ++ [CallBoolPrompt "Confirm finalized schema"]) in
        match BoolPrompt env shown "Confirm finalized schema" with
        | inl e => (inl e, w2)
        | inr true => (inr tt, w2)
        | inr false => (inl (errors_New "aborted finalizing schema"), w2)
        end
      end
    end.
Proof.
  unfold buildDatarepoSchema, sampleAndEdit.
  unfold doSamplerFactory, doSampleSchema, doPreviewSamples, doEditorPrompt,
         doBoolPrompt, Println.
  unfold_monad; cbn.
  rewrite <- ?app_assoc; cbn.
  repeat (case_match; simplify_eq; cbn in *; rewrite <- ?app_assoc in *;
          cbn in *; simplify_eq); reflexivity.
Qed.

(** The first half of the schema step shows no yes/no prompt, opens the
    editor at most once, and leaves the manifest alone. *)
Lemma sampleAndEdit_calls (w : W) :
  exists evs,
    after (sampleAndEdit env w) = mkWorld (manifest w) (trace w ++ evs) /\
    Forall (fun ev => forall q, ev <> CallBoolPrompt q) evs /\
    List.length (List.filter isEditorCall evs) <= 1 /\
    (forall text w1, sampleAndEdit env w = (inr text, w1) ->
       List.length (List.filter isEditorCall evs) = 1).
Proof.
  unfold sampleAndEdit.
  unfold doSamplerFactory, doSampleSchema, doPreviewSamples, doEditorPrompt.
  unfold_monad; cbn.
  repeat case_match; simplify_eq; cbn; rewrite <- ?app_assoc; cbn;
    eexists; (split; [destruct w; reflexivity|]);
    (split; [repeat constructor; intros; discriminate|]);
    cbn; (split; [lia | intros; simplify_eq; try reflexivity]).
Qed.

(** ** The confirmation step and cancellation *)

(** C5 (as amended): a no at the manifest confirmation makes the step
    return [errors.New("user cancelled data source configurations")]; a run
    that ends there has made no call to the sampling engine; a no at the
    schema confirmation returns [errors.New("aborted finalizing schema")].
    The two errors have different texts and one Go type, which is also the
    type of the unsupported-feature error of the format step. *)
Theorem declining_a_confirmation :
  let cancelled := errors_New "user cancelled data source configurations" in
  let aborted := errors_New "aborted finalizing schema" in
  (forall w : W, declinedManifest env w ->
     exists w', confirmDatasourceConfigs env w = (inl cancelled, w') /\
                manifest w' = manifest w) /\
  (forall (history : list Ev) (w : W),
     reachesConfirmation K env history w -> declinedManifest env w ->
     exists w' evs,
       ingestCmd_Run K env history = (Exited cancelled, w') /\
       trace w' = (history ++ evs)%list /\
       Forall (fun ev => isSamplingCall ev = false) evs) /\
  (forall w : W, declinedSchema env w ->
     exists w', buildDatarepoSchema env w = (inl aborted, w')) /\
  (forall (w w' : W) e,
     pickedIndividualFiles K env w ->
     buildDatasourceFormatConfig K env w = (inl e, w') ->
     dynType e = dynType cancelled) /\
  dynType aborted = dynType cancelled /\
  Error aborted <> Error cancelled.
Proof.
  intros cancelled aborted.
  assert (Hno : forall w : W, declinedManifest env w ->
            exists w', confirmDatasourceConfigs env w = (inl cancelled, w') /\
                       manifest w' = manifest w).
  { intros w (y & Hy & Hb). unfold confirmationPrintlns in Hb.
    unfold confirmDatasourceConfigs, doBoolPrompt, Println.
    unfold_monad; cbn. rewrite Hy; cbn. rewrite <- !app_assoc; cbn.
    rewrite Hb; cbn. eexists; split; reflexivity. }
  split; [exact Hno|]. split; [|split; [|split; [|split]]].
  - intros history w Hreach Hdecl.
    destruct (Hno w Hdecl) as (w' & Hconf & _).
    destruct (reachesConfirmation_no_sampling _ _ Hreach) as (evs1 & Ht1 & Hs1).
    destruct (confirmation_step_no_sampling w) as (evs2 & Ht2 & Hs2).
    rewrite Hconf in Ht2; cbn in Ht2.
    exists w', (evs1 ++ evs2)%list. split; [|split].
    + rewrite (ingestCmd_Run_from_confirmation _ _ Hreach), Hconf. reflexivity.
    + rewrite Ht2, Ht1. now rewrite <- app_assoc.
    + now apply Forall_app.
  - intros w (text & w1 & record & Hedit & Hparse & Hb).
    rewrite buildDatarepoSchema_split, Hedit, Hparse; cbn zeta.
    rewrite Hb. eexists; reflexivity.
  - intros w w' e (r & Hr & Hv) Hstep.
    pose proof (format_step_branches_on_value w r Hr Hv) as Hres.
    unfold result in Hres. rewrite Hstep in Hres; cbn in Hres.
    now simplify_eq.
  - reflexivity.
  - discriminate.
Qed.

(** ** The schema step *)

(** C6: when the text that comes back from the editor does not parse, the
    schema step returns the parse error at once, a run that had got to the
    schema step ends with that error, and the calls made by the step are
    those of its first half: no yes/no prompt, and one editor session. *)
Theorem schema_parse_failure_ends_the_run (w w1 : W) (text : string)
    (e : error) :
  sampleAndEdit env w = (inr text, w1) ->
  yaml_Unmarshal_schema env text = inl e ->
  buildDatarepoSchema env w = (inl e, w1) /\
  (forall history, reachesSchemaStep K env history w ->
                   ingestCmd_Run K env history = (Exited e, w1)) /\
  exists evs,
    trace w1 = (trace w ++ evs)%list /\
    Forall (fun ev => forall q, ev <> CallBoolPrompt q) evs /\
    List.length (List.filter isEditorCall evs) = 1.
Proof.
  intros Hedit Hparse.
  assert (Hstep : buildDatarepoSchema env w = (inl e, w1)).
  { now rewrite buildDatarepoSchema_split, Hedit, Hparse. }
  split; [exact Hstep|]. split.
  - intros history Hreach.
    now rewrite (ingestCmd_Run_from_schema_step _ _ Hreach), Hstep.
  - destruct (sampleAndEdit_calls w) as (evs & Hafter & Hno & _ & Hone).
    unfold after in Hafter. rewrite Hedit in Hafter; cbn in Hafter.
    exists evs. split; [now rewrite Hafter|]. split; [exact Hno|].
    eapply Hone, Hedit.
Qed.

(** C10: on the success path the schema step returns [nil] and nothing
    else; the manifest is the one it started with; the calls it makes carry
    the edited text, never the parsed record; and replacing the parsed
    record by anything else changes nothing of what the step does. *)
Theorem schema_step_discards_the_parsed_record (w w1 : W) (text : string)
    (record : SchemaField) :
  sampleAndEdit env w = (inr text, w1) ->
  yaml_Unmarshal_schema env text = inr record ->
  BoolPrompt env (trace w1 ++ [CallPrintln "Final Schema:"; CallPrintln text])
             "Confirm finalized schema" = inr true ->
  buildDatarepoSchema env w =
    (inr tt,
     mkWorld (manifest w)
       (trace w1 ++ [CallPrintln "Final Schema:"; CallPrintln text;
                     CallBoolPrompt "Confirm finalized schema"])) /\
  (forall (F' : Type) (f : SchemaField -> F'),
     buildDatarepoSchema (withParsedRecord f env) w =
     buildDatarepoSchema env w).
Proof.
  intros Hedit Hparse Hyes. split.
  - rewrite buildDatarepoSchema_split, Hedit, Hparse; cbn zeta.
    rewrite Hyes. rewrite <- app_assoc; cbn.
    destruct (sampleAndEdit_calls w) as (evs & Hafter & _).
    unfold after in Hafter. rewrite Hedit in Hafter; cbn in Hafter.
    now rewrite Hafter.
  - intros F' f.
    unfold buildDatarepoSchema, doSamplerFactory, doSampleSchema,
           doPreviewSamples, doEditorPrompt, doBoolPrompt, Println.
    unfold_monad; cbn.
    repeat (case_match; simplify_eq; cbn in *; simplify_eq); reflexivity.
Qed.

(** ** The driver *)

(** C8: the driver runs the location step, then the format step in the
    world the location step left, then the confirmation, then the schema
    step; it stops at the first step that returns an error, in the world
    that step left and with that very error, and returns only when all four
    succeeded. *)
Theorem driver_runs_steps_in_order (history : list Ev) :
  let w1 : W := mkWorld zeroManifest (history ++ [CallPrintln EmptyString]) in
  (exists e w,
     buildDatasourceLocationConfig K env w1 = (inl e, w) /\
     ingestCmd_Run K env history = (Exited e, w)) \/
  (exists w2 e w,
     buildDatasourceLocationConfig K env w1 = (inr tt, w2) /\
     buildDatasourceFormatConfig K env w2 = (inl e, w) /\
     ingestCmd_Run K env history = (Exited e, w)) \/
  (exists w2 w3 e w,
     buildDatasourceLocationConfig K env w1 = (inr tt, w2) /\
     buildDatasourceFormatConfig K env w2 = (inr tt, w3) /\
     confirmDatasourceConfigs env w3 = (inl e, w) /\
     ingestCmd_Run K env history = (Exited e, w)) \/
  (exists w2 w3 w4 e w,
     buildDatasourceLocationConfig K env w1 = (inr tt, w2) /\
     buildDatasourceFormatConfig K env w2 = (inr tt, w3) /\
     confirmDatasourceConfigs env w3 = (inr tt, w4) /\
     buildDatarepoSchema env w4 = (inl e, w) /\
     ingestCmd_Run K env history = (Exited e, w)) \/
  (exists w2 w3 w4 w5,
     buildDatasourceLocationConfig K env w1 = (inr tt, w2) /\
     buildDatasourceFormatConfig K env w2 = (inr tt, w3) /\
     confirmDatasourceConfigs env w3 = (inr tt, w4) /\
     buildDatarepoSchema env w4 = (inr tt, w5) /\
     ingestCmd_Run K env history = (Returned, w5)).
Proof.
  intros w1. unfold ingestCmd_Run.
  change (Println EmptyString (mkWorld zeroManifest history))
    with (@inr error unit tt, w1).
  cbn iota.
  destruct (buildDatasourceLocationConfig K env w1) as [[e|[]] w2] eqn:H1;
    cbn [CheckErr]; [left; eauto|right].
  destruct (buildDatasourceFormatConfig K env w2) as [[e|[]] w3] eqn:H2;
    cbn [CheckErr]; [left; eauto 10|right].
  destruct (confirmDatasourceConfigs env w3) as [[e|[]] w4] eqn:H3;
    cbn [CheckErr]; [left; eauto 10|right].
  destruct (buildDatarepoSchema env w4) as [[e|[]] w5] eqn:H4;
    cbn [CheckErr]; [left; eauto 12|right; eauto 12].
Qed.

End Properties.

Lemma result_after {W A : Type} (p : (error + A) * W) (a : A) :
  result p = inr a -> p = (inr a, after p).
Proof. destruct p as [r w]; unfold result, after; cbn. now intros ->. Qed.

(** * The properties on concrete runs *)

Section ConcreteRuns.
Import Scenario.

(** AWS S3 chosen, the user picks individual files: the step fails and the
    manifest still has no format config. *)
Lemma format_step_individual_files_unsupported_witness :
  buildDatasourceFormatConfig constants (scripted filesOnS3) s3Chosen =
    (inl (errors_New "individual binary files not yet supported"),
     mkWorld (manifest s3Chosen)
       [formatPromptCall
          [CommaSeparatedValuesFilesSelector constants;
           IndividualBinaryFilesSelector constants]]) /\
  DatasourceFormatConfig
    (manifest (after (buildDatasourceFormatConfig constants
                        (scripted filesOnS3) s3Chosen))) = nilConfig.
Proof.
  destruct (format_step_individual_files_unsupported
              constants (scripted filesOnS3) s3Chosen) as [Hfiles Hframe].
  split.
  - apply Hfiles; reflexivity.
  - destruct (Hframe (errors_New "individual binary files not yet supported")
                (after (buildDatasourceFormatConfig constants
                          (scripted filesOnS3) s3Chosen)))
      as [_ Hcfg]; [vm_compute; reflexivity|].
    rewrite Hcfg. reflexivity.
Defined.

(** AWS S3 chosen: the first call of the format step offers CSV files and
    individual files, in that order. *)
Lemma format_prompt_offers_the_table_entry_witness :
  exists rest,
    trace (after (buildDatasourceFormatConfig constants
                    (scripted csvOnS3) s3Chosen)) =
      formatPromptCall
        [CommaSeparatedValuesFilesSelector constants;
         IndividualBinaryFilesSelector constants] :: rest /\
    Forall (fun ev => forall options,
              ev <> formatPromptCall options) rest.
Proof.
  destruct (format_prompt_offers_the_table_entry
              constants (scripted csvOnS3) s3Chosen
              [CommaSeparatedValuesFilesSelector constants;
               IndividualBinaryFilesSelector constants])
    as (_ & _ & rest & Htrace & Hrest); [vm_compute; reflexivity|].
  exists rest. split; [exact Htrace | exact Hrest].
Defined.

(** The user picks the local directory at the first prompt of a fresh run. *)
Lemma location_step_local_directory_unsupported_witness :
  exists e,
    buildDatasourceLocationConfig constants (scripted localDirectory) start =
      (inl e, mkWorld zeroManifest [locationPromptCall constants]) /\
    e = errors_New "local directories not yet supported" /\
    contains "local directories not yet supported" (Error e) = true.
Proof.
  destruct (location_step_local_directory_unsupported
              constants (scripted localDirectory) start) as [Hlocal _].
  apply Hlocal. reflexivity.
Defined.

(** The format step on the zero manifest, whose location value is the empty
    string. *)
Lemma format_step_missing_entry_prompts_with_no_options_witness :
  exists rest,
    trace (after (buildDatasourceFormatConfig constants
                    (scripted csvOnS3) start)) =
      formatPromptCall [] :: rest.
Proof.
  destruct (format_step_missing_entry_prompts_with_no_options
              constants (scripted csvOnS3) start)
    as (_ & Hprompt & _); [vm_compute; reflexivity|].
  exact Hprompt.
Defined.

(** A format step run on a manifest whose location value is not in the
    table: the prompt is called with no options and, the scripted user
    answering CSV files, the step succeeds. *)
Example format_step_on_missing_entry :
  allowedSelectors constants
    !! Value (selectedDatasourceLocation (manifest start)) = None /\
  buildDatasourceFormatConfig constants (scripted csvOnS3) start =
    (inr tt,
     mkWorld {| selectedDatasourceType := CommaSeparatedValuesFilesSelector constants;
                DatasourceFormatConfig :=
                  CSVFilesFormat {| Delimiter := ","; Header := true |};
                selectedDatasourceLocation := zeroSelect;
                DatasourceLocationConfig := nilConfig |}
             [formatPromptCall [];
              delimiterPromptCall constants;
              CallBoolPrompt "CSV files contain header row"]).
Proof. split; vm_compute; reflexivity. Qed.

(** C1, as the specification states it, fails: the lookup of an absent key
    is not an error. *)
Lemma missing_table_entry_is_not_fatal : ~ missing_table_entry_is_fatal.
Proof.
  intros Hfatal.
  destruct format_step_on_missing_entry as [Habsent Hrun].
  destruct (Hfatal constants (scripted csvOnS3) start Habsent) as [e He].
  rewrite Hrun in He. discriminate He.
Qed.

(** A scripted run gets to the confirmation step when its first two steps
    succeed. *)
Lemma reachesConfirmation_scripted (s : Script) :
  result (buildDatasourceLocationConfig constants (scripted s)
            (mkWorld zeroManifest [CallPrintln EmptyString])) = inr tt ->
  result (buildDatasourceFormatConfig constants (scripted s)
            (after (buildDatasourceLocationConfig constants (scripted s)
                      (mkWorld zeroManifest [CallPrintln EmptyString])))) = inr tt ->
  reachesConfirmation constants (scripted s) [] (atConfirmation s).
Proof.
  intros Hloc Hfmt. unfold reachesConfirmation, atConfirmation. cbn [app].
  eexists. split; apply result_after; eassumption.
Qed.

Lemma reachesSchemaStep_scripted (s : Script) :
  reachesConfirmation constants (scripted s) [] (atConfirmation s) ->
  result (confirmDatasourceConfigs (scripted s) (atConfirmation s)) = inr tt ->
  reachesSchemaStep constants (scripted s) [] (atSchemaStep s).
Proof.
  intros Hreach Hconf. unfold reachesSchemaStep, atSchemaStep.
  eexists. split; [exact Hreach|]. now apply result_after.
Qed.

(** A scripted run on AWS S3 and CSV files, declined at the manifest
    confirmation; and a schema step declined at its confirmation. *)
Lemma declining_a_confirmation_witness :
  (exists w' evs,
     ingestCmd_Run constants (scripted declineManifest) [] =
       (Exited (errors_New "user cancelled data source configurations"), w') /\
     trace w' = evs /\
     Forall (fun ev => isSamplingCall ev = false) evs) /\
  (exists w',
     buildDatarepoSchema (scripted declineSchema) (atSchemaStep declineSchema) =
       (inl (errors_New "aborted finalizing schema"), w')).
Proof.
  split.
  - destruct (declining_a_confirmation constants (scripted declineManifest))
      as (_ & Hrun & _).
    apply (Hrun [] (atConfirmation declineManifest)).
    + apply reachesConfirmation_scripted; vm_compute; reflexivity.
    + exists "datasourceType: {}". split; vm_compute; reflexivity.
  - destruct (declining_a_confirmation constants (scripted declineSchema))
      as (_ & _ & Hschema & _).
    apply Hschema.
    exists (SchemaEditorTutorialBlurb ++ "# (no rows)" ++ "fields: []"),
           (after (sampleAndEdit (scripted declineSchema)
                     (atSchemaStep declineSchema))),
           (SchemaEditorTutorialBlurb ++ "# (no rows)" ++ "fields: []").
    split; [|split]; vm_compute; reflexivity.
Defined.

(** A no at the manifest confirmation, and the individual-files format
    picked on AWS S3: the two errors the steps return. *)
Example cancellation_and_unsupported_feature_errors :
  declinedManifest (scripted declineManifest) csvChosen /\
  result (confirmDatasourceConfigs (scripted declineManifest) csvChosen) =
    inl (mkError "*errors.errorString"
                 "user cancelled data source configurations") /\
  pickedIndividualFiles constants (scripted filesOnS3) s3Chosen /\
  result (buildDatasourceFormatConfig constants (scripted filesOnS3) s3Chosen) =
    inl (mkError "*errors.errorString"
                 "individual binary files not yet supported").
Proof.
  split; [|split; [|split]].
  - exists "datasourceType: {}". split; vm_compute; reflexivity.
  - vm_compute; reflexivity.
  - exists (IndividualBinaryFilesSelector constants).
    split; vm_compute; reflexivity.
  - vm_compute; reflexivity.
Qed.

(** C5, as the specification states it, fails: the cancellation error and
    the unsupported-feature error have one and the same type. *)
Lemma cancellation_is_not_an_error_type : ~ cancellation_is_an_error_type.
Proof.
  intros (isCancellation & Htype & Hmanifest & _ & Hfeature).
  destruct cancellation_and_unsupported_feature_errors
    as (Hno & Hcancel & Hpick & Hfiles).
  unfold result in Hcancel, Hfiles.
  destruct (confirmDatasourceConfigs _ _) as [r1 w1] eqn:E1.
  destruct (buildDatasourceFormatConfig _ _ _) as [r2 w2] eqn:E2.
  cbn in Hcancel, Hfiles. subst r1 r2.
  pose proof (Hmanifest _ _ _ _ Hno E1) as Htrue.
  pose proof (Hfeature _ _ _ _ _ Hpick E2) as Hfalse.
  pose proof (Htype (mkError "*errors.errorString"
                             "user cancelled data source configurations")
                    (mkError "*errors.errorString"
                             "individual binary files not yet supported")
                    eq_refl) as Hsame.
  congruence.
Qed.

(** A scripted run whose edited schema the parser rejects. *)
Lemma schema_parse_failure_ends_the_run_witness :
  ingestCmd_Run constants (scripted brokenEdit) [] =
    (Exited (mkError "*errors.errorString"
                     "yaml: line 1: did not find expected key"),
     after (sampleAndEdit (scripted brokenEdit) (atSchemaStep brokenEdit))) /\
  Forall (fun ev => forall q, ev <> CallBoolPrompt q)
    (drop (List.length (trace (atSchemaStep brokenEdit)))
       (trace (after (sampleAndEdit (scripted brokenEdit)
                        (atSchemaStep brokenEdit))))).
Proof.
  destruct (schema_parse_failure_ends_the_run
              constants (scripted brokenEdit)
              (atSchemaStep brokenEdit)
              (after (sampleAndEdit (scripted brokenEdit)
                        (atSchemaStep brokenEdit)))
              (SchemaEditorTutorialBlurb ++ "# (no rows)" ++ "fields: []")
              (mkError "*errors.errorString"
                       "yaml: line 1: did not find expected key"))
    as (_ & Hrun & evs & Htrace & Hno & _).
  - vm_compute; reflexivity.
  - vm_compute; reflexivity.
  - split.
    + apply Hrun. apply reachesSchemaStep_scripted;
        [apply reachesConfirmation_scripted|]; vm_compute; reflexivity.
    + rewrite Htrace, drop_app_length. exact Hno.
Defined.

(** A scripted run that goes through: the schema step succeeds, and erasing
    the parsed record to [tt] changes nothing. *)
Lemma schema_step_discards_the_parsed_record_witness :
  result (buildDatarepoSchema (scripted csvOnS3) (atSchemaStep csvOnS3)) =
    inr tt /\
  manifest (after (buildDatarepoSchema (scripted csvOnS3)
                     (atSchemaStep csvOnS3))) = manifest csvChosen /\
  buildDatarepoSchema (withParsedRecord (fun _ => tt) (scripted csvOnS3))
                      (atSchemaStep csvOnS3) =
  buildDatarepoSchema (scripted csvOnS3) (atSchemaStep csvOnS3).
Proof.
  destruct (schema_step_discards_the_parsed_record
              (scripted csvOnS3) (atSchemaStep csvOnS3)
              (after (sampleAndEdit (scripted csvOnS3) (atSchemaStep csvOnS3)))
              (SchemaEditorTutorialBlurb ++ "# (no rows)" ++ "fields: []")
              (SchemaEditorTutorialBlurb ++ "# (no rows)" ++ "fields: []"))
    as (Hstep & Hsame).
  - vm_compute; reflexivity.
  - vm_compute; reflexivity.
  - vm_compute; reflexivity.
  - rewrite Hstep. split; [reflexivity|]. split; [vm_compute; reflexivity|].
    rewrite <- Hstep. apply Hsame.
Defined.

End ConcreteRuns.

(** * Further properties of the steps and of the driver *)

Section Coverage.
Context {Sampler SampledSchema SchemaField : Type}.
Variable K : IngestConstants.
Variable env : Collaborators Sampler SampledSchema SchemaField.

Local Abbreviation Ev := (Event Sampler SampledSchema).
Local Abbreviation W := (World Sampler SampledSchema).

(** ** Inversion of the successful paths *)

(** A format step that succeeded: what was answered, and the world left. *)
Lemma format_step_success_inv (w w' : W) :
  buildDatasourceFormatConfig K env w = (inr tt, w') ->
  let options :=
    allowedSelectors_index K (Value (selectedDatasourceLocation (manifest w))) in
  exists r d h,
    SelectPrompt env (trace w) "Data format"
      "Choose how your data is laid out." options = inr r /\
    Value r = DataformatIDCSVFiles K /\
    Value r <> DataformatIDIndividualFiles K /\
    SelectPrompt env (trace w ++ [formatPromptCall options]) "Delimiter"
      "Columns in each file are delimited by this character"
      (csvDelimiterSelectors K) = inr d /\
    w' = mkWorld
           {| selectedDatasourceType := r;
              DatasourceFormatConfig :=
                CSVFilesFormat {| Delimiter := Value d; Header := h |};
              selectedDatasourceLocation :=
                selectedDatasourceLocation (manifest w);
              DatasourceLocationConfig :=
                DatasourceLocationConfig (manifest w) |}
           (trace w ++ [formatPromptCall options; delimiterPromptCall K;
                        CallBoolPrompt "CSV files contain header row"]).
Proof.
  intros Hstep options. subst options. revert Hstep.
  unfold_steps; cbn. unfold formatPromptCall, delimiterPromptCall.
  intros Hstep.
  repeat (case_match; simplify_eq; cbn in *; simplify_eq).
  rewrite <- !app_assoc; cbn.
  match goal with
  | Hi : (Value ?r =? DataformatIDIndividualFiles K)%string = false,
    Hc : (Value ?r =? DataformatIDCSVFiles K)%string = true |- _ =>
      apply String.eqb_neq in Hi; apply String.eqb_eq in Hc
  end.
  eexists _, _, _. repeat split; eauto.
Qed.

(** A location step that succeeded. *)
Lemma location_step_success_inv (w w' : W) :
  buildDatasourceLocationConfig K env w = (inr tt, w') ->
  exists bucket prefix,
    SelectPrompt env (trace w) "Data Source"
      "Specify the source for importing data from." (locationSelectors K)
      = inr (AWSS3Selector K) /\
    TextPrompt env (trace w ++ [locationPromptCall K]) "AWS S3 Bucket"
      = inr bucket /\
    TextPrompt env (trace w ++ [locationPromptCall K;
                                CallTextPrompt "AWS S3 Bucket"])
      "AWS S3 Prefix" = inr prefix /\
    w' = mkWorld
           {| selectedDatasourceType := selectedDatasourceType (manifest w);
              DatasourceFormatConfig := DatasourceFormatConfig (manifest w);
              selectedDatasourceLocation := AWSS3Selector K;
              DatasourceLocationConfig :=
                AWSS3Location {| Bucket := bucket; Prefix := prefix |} |}
           (trace w ++ [locationPromptCall K; CallTextPrompt "AWS S3 Bucket";
                        CallTextPrompt "AWS S3 Prefix"]).
Proof.
  unfold_steps; cbn. unfold locationPromptCall.
  intros Hstep.
  repeat (case_match; simplify_eq; cbn in *; simplify_eq).
  rewrite <- !app_assoc in *; cbn in *.
  match goal with
  | Hs : selectPromptData_eqb ?r (AWSS3Selector K) = true |- _ =>
      apply selectPromptData_eqb_eq in Hs; subst r
  end.
  eexists _, _. repeat split; eauto.
Qed.

(** A confirmation step that succeeded. *)
Lemma confirmation_step_success_inv (w w' : W) :
  confirmDatasourceConfigs env w = (inr tt, w') ->
  exists y,
    yaml_Marshal_manifest env (manifest w) = inr y /\
    w' = mkWorld (manifest w)
           (trace w ++ [CallPrintln "Data Source Configurations:";
                        CallPrintln EmptyString; CallPrintln y;
                        CallBoolPrompt "Confirm and detect schema"]).
Proof.
  unfold_steps; cbn. intros Hstep.
  repeat (case_match; simplify_eq; cbn in *; simplify_eq).
  rewrite <- !app_assoc; cbn. eexists. split; reflexivity.
Qed.

(** A schema step that succeeded. *)
Lemma schema_step_success_inv (w w' : W) :
  buildDatarepoSchema env w = (inr tt, w') ->
  exists sampler sampled text rest,
    SamplerFactory env (trace w) (DatasourceFormatConfig (manifest w))
      (DatasourceLocationConfig (manifest w)) = inr sampler /\
    w' = mkWorld (manifest w)
           (trace w ++
            CallSamplerFactory (DatasourceFormatConfig (manifest w))
                               (DatasourceLocationConfig (manifest w))
            :: CallSampleSchema sampler
            :: CallPreviewSamples sampled sampler
            :: CallEditorPrompt rest "yaml"
            :: [CallPrintln "Final Schema:"; CallPrintln text;
                CallBoolPrompt "Confirm finalized schema"]).
Proof.
  unfold_steps; cbn. intros Hstep.
  repeat (case_match; simplify_eq; cbn in *; simplify_eq).
  rewrite <- !app_assoc; cbn. eexists _, _, _, _. split; reflexivity.
Qed.

(** ** The calls each step appends *)

Ltac step_shape :=
  unfold_steps; cbn;
  repeat (case_match; simplify_eq; cbn in *; simplify_eq);
  rewrite <- ?app_assoc; cbn;
  first [ eexists; split; [reflexivity|]
        | exists []; split; [now rewrite app_nil_r|] ];
  (split; [eexists; reflexivity | intros; simplify_eq; reflexivity]).

Lemma location_step_shape (w : W) :
  exists evs,
    trace (after (buildDatasourceLocationConfig K env w)) = (trace w ++ evs)%list /\
    map kindOf evs `prefix_of` locationStepCalls /\
    (result (buildDatasourceLocationConfig K env w) = inr tt ->
     map kindOf evs = locationStepCalls).
Proof. step_shape. Qed.

Lemma format_step_shape (w : W) :
  exists evs,
    trace (after (buildDatasourceFormatConfig K env w)) = (trace w ++ evs)%list /\
    map kindOf evs `prefix_of` formatStepCalls /\
    (result (buildDatasourceFormatConfig K env w) = inr tt ->
     map kindOf evs = formatStepCalls).
Proof. step_shape. Qed.

Lemma confirmation_step_shape (w : W) :
  exists evs,
    trace (after (confirmDatasourceConfigs env w)) = (trace w ++ evs)%list /\
    map kindOf evs `prefix_of` confirmationStepCalls /\
    (result (confirmDatasourceConfigs env w) = inr tt ->
     map kindOf evs = confirmationStepCalls).
Proof. step_shape. Qed.

Lemma schema_step_shape (w : W) :
  exists evs,
    trace (after (buildDatarepoSchema env w)) = (trace w ++ evs)%list /\
    map kindOf evs `prefix_of` schemaStepCalls /\
    (result (buildDatarepoSchema env w) = inr tt ->
     map kindOf evs = schemaStepCalls).
Proof. step_shape. Qed.

(** ** The compatibility table and the location list *)

(** X1: every location the location prompt offers has an entry in the
    compatibility table, and that entry is CSV files then individual
    files; this holds whatever the identifiers of package [ingest] are,
    also when two of them coincide. *)
Theorem offered_locations_have_table_entries :
  Forall (fun location =>
            allowedSelectors K !! Value location =
              Some [CommaSeparatedValuesFilesSelector K;
                    IndividualBinaryFilesSelector K])
         (locationSelectors K).
Proof.
  unfold locationSelectors. repeat constructor;
    rewrite allowedSelectors_lookup; cbn;
    (rewrite bool_decide_eq_true_2; [reflexivity | auto]).
Qed.

(** ** The format-selection step *)

(** X2: a format step that succeeds has stored an option carrying the CSV
    identifier together with a CSV config, and has left the two location
    fields as they were; it can only succeed when the CSV identifier
    differs from the individual-files identifier, whose case comes first. *)
Theorem format_step_success_stores_csv (w w' : W) :
  buildDatasourceFormatConfig K env w = (inr tt, w') ->
  Value (selectedDatasourceType (manifest w')) = DataformatIDCSVFiles K /\
  DataformatIDCSVFiles K <> DataformatIDIndividualFiles K /\
  (exists c, DatasourceFormatConfig (manifest w') = CSVFilesFormat c) /\
  selectedDatasourceLocation (manifest w') =
    selectedDatasourceLocation (manifest w) /\
  DatasourceLocationConfig (manifest w') = DatasourceLocationConfig (manifest w).
Proof.
  intros Hstep.
  destruct (format_step_success_inv _ _ Hstep)
    as (r & d & h & _ & Hcsv & Hne & _ & ->); cbn.
  split; [exact Hcsv|]. split; [congruence|]. split; [eauto|]. split; reflexivity.
Qed.

(** X3: when the format prompt answers with one of the options it was
    given, the step either refuses individual files or goes on to the CSV
    builder, whose first question is the delimiter; the database-table case
    and the default case are not reached. *)
Theorem format_step_offered_answer (w : W) (r : selectPromptData) :
  let options :=
    allowedSelectors_index K (Value (selectedDatasourceLocation (manifest w))) in
  SelectPrompt env (trace w) "Data format" "Choose how your data is laid out."
    options = inr r ->
  r ∈ options ->
  buildDatasourceFormatConfig K env w =
    (inl (errors_New "individual binary files not yet supported"),
     mkWorld (manifest w) (trace w ++ [formatPromptCall options])) \/
  exists rest,
    trace (after (buildDatasourceFormatConfig K env w)) =
      (trace w ++ formatPromptCall options :: delimiterPromptCall K :: rest)%list.
Proof.
  intros options Hr Hin.
  assert (Hvalue : Value r = DataformatIDIndividualFiles K \/
                   Value r = DataformatIDCSVFiles K).
  { subst options. unfold allowedSelectors_index in Hin.
    rewrite allowedSelectors_lookup in Hin.
    case_bool_decide; cbn in Hin; [|now apply elem_of_nil in Hin].
    apply elem_of_cons in Hin as [->|Hin]; [now right|].
    apply elem_of_cons in Hin as [->|Hin]; [now left|].
    now apply elem_of_nil in Hin. }
  revert Hr. subst options.
  unfold_steps; cbn. unfold formatPromptCall, delimiterPromptCall.
  generalize (allowedSelectors_index K
                (Value (selectedDatasourceLocation (manifest w)))).
  intros options Hr. rewrite Hr; cbn.
  destruct (String.eqb_spec (Value r) (DataformatIDIndividualFiles K))
    as [Hi|Hi]; [now left|right].
  destruct Hvalue as [Hv|Hv]; [contradiction|].
  rewrite Hv, String.eqb_refl.
  repeat (case_match; simplify_eq; cbn in *; simplify_eq);
    rewrite <- ?app_assoc; cbn; eexists; reflexivity.
Qed.

(** X4: on a manifest whose location value has no table entry, a prompt
    that answers only with options it was given has nothing to answer: the
    step returns the prompt's own error, after that one call. *)
Theorem format_step_missing_entry_with_menu (w : W) :
  answersFromOptions env ->
  allowedSelectors K !! Value (selectedDatasourceLocation (manifest w)) = None ->
  exists e,
    SelectPrompt env (trace w) "Data format"
      "Choose how your data is laid out." [] = inl e /\
    buildDatasourceFormatConfig K env w =
      (inl e, mkWorld (manifest w) (trace w ++ [formatPromptCall []])).
Proof.
  intros Hmenu Habs.
  pose proof (allowedSelectors_index_absent _ _ Habs) as Hidx.
  destruct (SelectPrompt env (trace w) "Data format"
              "Choose how your data is laid out." []) as [e|r] eqn:Hr.
  - exists e. split; [reflexivity|].
    unfold buildDatasourceFormatConfig, doSelectPrompt, formatPromptCall.
    unfold_monad; cbn. now rewrite Hidx, Hr.
  - apply Hmenu in Hr. now apply elem_of_nil in Hr.
Qed.

(** ** The location-selection step *)

(** X5: a location step that succeeds was answered with [AWSS3Selector]
    itself; it has stored that option with the bucket and the prefix
    exactly as typed, bucket asked first, it has left the two format
    fields as they were, and it made three calls. *)
Theorem location_step_success_stores_s3 (w w' : W) :
  buildDatasourceLocationConfig K env w = (inr tt, w') ->
  selectedDatasourceLocation (manifest w') = AWSS3Selector K /\
  (exists bucket prefix,
     TextPrompt env (trace w ++ [locationPromptCall K]) "AWS S3 Bucket"
       = inr bucket /\
     TextPrompt env (trace w ++ [locationPromptCall K;
                                 CallTextPrompt "AWS S3 Bucket"])
       "AWS S3 Prefix" = inr prefix /\
     DatasourceLocationConfig (manifest w') =
       AWSS3Location {| Bucket := bucket; Prefix := prefix |}) /\
  selectedDatasourceType (manifest w') = selectedDatasourceType (manifest w) /\
  DatasourceFormatConfig (manifest w') = DatasourceFormatConfig (manifest w) /\
  trace w' = (trace w ++ [locationPromptCall K; CallTextPrompt "AWS S3 Bucket";
                          CallTextPrompt "AWS S3 Prefix"])%list.
Proof.
  intros Hstep.
  destruct (location_step_success_inv _ _ Hstep)
    as (bucket & prefix & _ & Hb & Hp & ->); cbn.
  split; [reflexivity|]. split; [eauto|]. repeat split.
Qed.

(** X6: when the location prompt answers with one of the two locations it
    was given, the step either refuses the local directory or goes on to
    the S3 builder, whose first question is the bucket; the default case is
    not reached. *)
Theorem location_step_offered_answer (w : W) (r : selectPromptData) :
  SelectPrompt env (trace w) "Data Source"
    "Specify the source for importing data from." (locationSelectors K)
    = inr r ->
  r ∈ locationSelectors K ->
  buildDatasourceLocationConfig K env w =
    (inl (errors_New "local directories not yet supported"),
     mkWorld (manifest w) (trace w ++ [locationPromptCall K])) \/
  exists rest,
    trace (after (buildDatasourceLocationConfig K env w)) =
      (trace w ++ locationPromptCall K
               :: CallTextPrompt "AWS S3 Bucket" :: rest)%list.
Proof.
  intros Hr Hin. unfold locationSelectors in Hin.
  apply elem_of_cons in Hin as [->|Hin].
  - right.
    unfold buildDatasourceLocationConfig,
           buildDatasourceLocationConfigForSelectedLocation, doSelectPrompt.
    unfold_monad; cbn. fold (locationSelectors K). rewrite Hr; cbn.
    replace (selectPromptData_eqb (AWSS3Selector K) (LocalDirectorySelector K))
      with false by reflexivity.
    rewrite selectPromptData_eqb_refl.
    unfold_steps; cbn. unfold locationPromptCall.
    repeat (case_match; simplify_eq; cbn in *; simplify_eq);
      rewrite <- ?app_assoc; cbn; eexists; reflexivity.
  - apply elem_of_cons in Hin as [->|Hin]; [|now apply elem_of_nil in Hin].
    left.
    unfold buildDatasourceLocationConfig,
           buildDatasourceLocationConfigForSelectedLocation, doSelectPrompt,
           locationPromptCall.
    unfold_monad; cbn. fold (locationSelectors K). rewrite Hr; cbn.
    now rewrite selectPromptData_eqb_refl.
Qed.

(** X7: the format step that follows a successful location step finds its
    table entry: its prompt offers CSV files and individual files. *)
Theorem format_prompt_after_location_step (w w2 : W) :
  buildDatasourceLocationConfig K env w = (inr tt, w2) ->
  exists rest,
    trace (after (buildDatasourceFormatConfig K env w2)) =
      (trace w2 ++
       formatPromptCall [CommaSeparatedValuesFilesSelector K;
                         IndividualBinaryFilesSelector K] :: rest)%list.
Proof.
  intros Hloc.
  assert (Hsel : selectedDatasourceLocation (manifest w2) = AWSS3Selector K).
  { now destruct (location_step_success_inv _ _ Hloc)
      as (b & p & _ & _ & _ & ->). }
  clear Hloc. unfold_steps; cbn. unfold formatPromptCall.
  rewrite Hsel, (allowedSelectors_AWSS3 K).
  repeat (case_match; simplify_eq; cbn in *; simplify_eq);
    rewrite <- ?app_assoc; cbn; eexists; reflexivity.
Qed.

(** ** The CSV builder *)

(** X8: the CSV builder never touches the manifest; when the delimiter
    prompt fails its error is returned and the header question is not
    asked; and when the delimiter prompt answers with an option it was
    given, the delimiter of the config is the comma or the tab constant. *)
Theorem csv_builder_delimiter_from_menu (w : W) :
  manifest (after (NewCSVFilesFormatConfigFromPrompts K env w)) = manifest w /\
  (forall e,
     SelectPrompt env (trace w) "Delimiter"
       "Columns in each file are delimited by this character"
       (csvDelimiterSelectors K) = inl e ->
     NewCSVFilesFormatConfigFromPrompts K env w =
       (inl e, mkWorld (manifest w) (trace w ++ [delimiterPromptCall K]))) /\
  (answersFromOptions env ->
   forall c w',
     NewCSVFilesFormatConfigFromPrompts K env w = (inr c, w') ->
     Delimiter c = CSVDelimiterCommas K \/ Delimiter c = CSVDelimiterTabs K).
Proof.
  split; [|split].
  - unfold_steps; cbn. now repeat (case_match; simplify_eq; cbn in *).
  - intros e He. unfold_steps; cbn. unfold delimiterPromptCall. now rewrite He.
  - intros Hmenu c w'. unfold_steps; cbn. intros Hrun.
    destruct (SelectPrompt env (trace w) "Delimiter"
                "Columns in each file are delimited by this character"
                (csvDelimiterSelectors K)) as [e|d] eqn:Hd; [discriminate|].
    apply Hmenu in Hd. unfold csvDelimiterSelectors in Hd.
    repeat (case_match; simplify_eq; cbn in *; simplify_eq).
    apply elem_of_cons in Hd as [->|Hd]; [now left|].
    apply elem_of_cons in Hd as [->|Hd]; [now right|].
    now apply elem_of_nil in Hd.
Qed.

(** ** The confirmation step *)

(** X9: the confirmation step never changes the manifest; when the manifest
    cannot be serialized the error is returned before anything is printed
    or asked; and a confirmation that succeeds has printed the
    serialization of this very manifest and was answered yes. *)
Theorem confirmation_step_keeps_manifest (w : W) :
  manifest (after (confirmDatasourceConfigs env w)) = manifest w /\
  (forall e, yaml_Marshal_manifest env (manifest w) = inl e ->
             confirmDatasourceConfigs env w = (inl e, w)) /\
  (forall w', confirmDatasourceConfigs env w = (inr tt, w') ->
     exists y,
       yaml_Marshal_manifest env (manifest w) = inr y /\
       BoolPrompt env (trace w ++ confirmationPrintlns y)
                  "Confirm and detect schema" = inr true /\
       trace w' = (trace w ++ confirmationPrintlns y ++
                   [CallBoolPrompt "Confirm and detect schema"])%list).
Proof.
  split; [|split].
  - unfold_steps; cbn. now repeat (case_match; simplify_eq; cbn in *).
  - intros e He. unfold_steps; cbn. rewrite He. now destruct w.
  - intros w'. unfold_steps; cbn. unfold confirmationPrintlns. intros Hrun.
    repeat (case_match; simplify_eq; cbn in *; simplify_eq).
    rewrite <- !app_assoc in *; cbn in *.
    match goal with Hb : negb ?b = false |- _ => destruct b; [|discriminate] end.
    eexists. split; [reflexivity|]. split; [eassumption|reflexivity].
Qed.

(** ** The schema step *)

(** X10: the schema step never changes the manifest; its first call is
    always the sampler factory, with the two configs of the manifest
    whatever they are; and the calls it makes are an initial segment of
    factory, sampling, preview, editor, two printed lines, confirmation. *)
Theorem schema_step_keeps_manifest_and_order (w : W) :
  manifest (after (buildDatarepoSchema env w)) = manifest w /\
  exists rest,
    trace (after (buildDatarepoSchema env w)) =
      (trace w ++
       CallSamplerFactory (DatasourceFormatConfig (manifest w))
                          (DatasourceLocationConfig (manifest w)) :: rest)%list /\
    KSamplerFactory :: map kindOf rest `prefix_of` schemaStepCalls.
Proof.
  split.
  - unfold_steps; cbn. now repeat (case_match; simplify_eq; cbn in *).
  - unfold_steps; cbn.
    repeat (case_match; simplify_eq; cbn in *; simplify_eq);
      rewrite <- ?app_assoc; cbn;
      eexists; (split; [reflexivity|]); eexists; reflexivity.
Qed.

(** ** Runs of the driver *)

Lemma ingestCmd_Run_unfold (history : list Ev) :
  ingestCmd_Run K env history =
    CheckErr (buildDatasourceLocationConfig K env
                (mkWorld zeroManifest (history ++ [CallPrintln EmptyString])))
      (fun w2 =>
    CheckErr (buildDatasourceFormatConfig K env w2) (fun w3 =>
    CheckErr (confirmDatasourceConfigs env w3) (fun w4 =>
    CheckErr (buildDatarepoSchema env w4) (fun w5 => (Returned, w5))))).
Proof. reflexivity. Qed.

(** A run that returned went through the four steps. *)
Lemma ingestCmd_Run_returned_inv (history : list Ev) (w5 : W) :
  ingestCmd_Run K env history = (Returned, w5) ->
  exists w4, reachesSchemaStep K env history w4 /\
             buildDatarepoSchema env w4 = (inr tt, w5).
Proof.
  rewrite ingestCmd_Run_unfold. unfold reachesSchemaStep, reachesConfirmation.
  destruct (buildDatasourceLocationConfig K env _) as [[e|[]] w2] eqn:H1;
    cbn [CheckErr]; [discriminate|].
  destruct (buildDatasourceFormatConfig K env w2) as [[e|[]] w3] eqn:H2;
    cbn [CheckErr]; [discriminate|].
  destruct (confirmDatasourceConfigs env w3) as [[e|[]] w4] eqn:H3;
    cbn [CheckErr]; [discriminate|].
  destruct (buildDatarepoSchema env w4) as [[e|[]] w5'] eqn:H4;
    cbn [CheckErr]; [discriminate|].
  intros [= <-]. eauto 10.
Qed.

(** The manifest of a run that got to the confirmation step. *)
Lemma reachesConfirmation_manifest (history : list Ev) (w : W) :
  reachesConfirmation K env history w ->
  exists r d h bucket prefix options t,
    SelectPrompt env t "Data format" "Choose how your data is laid out."
      options = inr r /\
    options = [CommaSeparatedValuesFilesSelector K;
               IndividualBinaryFilesSelector K] /\
    SelectPrompt env (t ++ [formatPromptCall options]) "Delimiter"
      "Columns in each file are delimited by this character"
      (csvDelimiterSelectors K) = inr d /\
    Value r = DataformatIDCSVFiles K /\
    Value r <> DataformatIDIndividualFiles K /\
    manifest w =
      {| selectedDatasourceType := r;
         DatasourceFormatConfig :=
           CSVFilesFormat {| Delimiter := Value d; Header := h |};
         selectedDatasourceLocation := AWSS3Selector K;
         DatasourceLocationConfig :=
           AWSS3Location {| Bucket := bucket; Prefix := prefix |} |}.
Proof.
  intros (w2 & Hloc & Hfmt).
  destruct (location_step_success_inv _ _ Hloc)
    as (bucket & prefix & _ & _ & _ & Hw2).
  destruct (format_step_success_inv _ _ Hfmt)
    as (r & d & h & Hr & Hcsv & Hne & Hd & ->).
  rewrite Hw2 in Hr, Hd |- *; cbn in Hr, Hd |- *.
  change (DatasourceIDAWSS3 K) with (Value (AWSS3Selector K)) in Hr, Hd.
  rewrite (allowedSelectors_AWSS3 K) in Hr, Hd.
  eexists r, d, h, bucket, prefix, _, _.
  split; [exact Hr|]. split; [reflexivity|]. split; [exact Hd|]. auto.
Qed.

(** The confirmation and schema steps hand the manifest on unchanged. *)
Lemma reachesSchemaStep_manifest (history : list Ev) (w : W) :
  reachesSchemaStep K env history w ->
  exists w3, reachesConfirmation K env history w3 /\
             manifest w = manifest w3.
Proof.
  intros (w3 & Hreach & Hconf). exists w3. split; [exact Hreach|].
  now destruct (confirmation_step_success_inv _ _ Hconf) as (y & _ & ->).
Qed.

(** X11: whatever the collaborators answer, the calls of a run are an
    initial segment of one fixed sequence: the blank line, the three calls
    of the location step, the three of the format step, the four of the
    confirmation and the seven of the schema step; a run that returns has
    made all eighteen. *)
Theorem every_run_follows_the_call_order (history : list Ev) :
  exists evs,
    trace (snd (ingestCmd_Run K env history)) = (history ++ evs)%list /\
    map kindOf evs `prefix_of` wizardCalls /\
    (fst (ingestCmd_Run K env history) = Returned ->
     map kindOf evs = wizardCalls).
Proof.
  rewrite ingestCmd_Run_unfold. unfold wizardCalls.
  set (w1 := mkWorld zeroManifest (history ++ [CallPrintln EmptyString])).
  destruct (location_step_shape w1) as (evs1 & Ht1 & Hp1 & Hf1).
  unfold after, result in Ht1, Hf1.
  destruct (buildDatasourceLocationConfig K env w1) as [[e|[]] w2];
    cbn [CheckErr fst snd] in *.
  { exists (CallPrintln EmptyString :: evs1). rewrite Ht1; subst w1; cbn [trace].
    rewrite <- app_assoc. split; [reflexivity|]. split; [|discriminate].
    cbn [map kindOf]. apply prefix_cons. now apply prefix_app_r. }
  specialize (Hf1 eq_refl). clear Hp1.
  destruct (format_step_shape w2) as (evs2 & Ht2 & Hp2 & Hf2).
  unfold after, result in Ht2, Hf2.
  destruct (buildDatasourceFormatConfig K env w2) as [[e|[]] w3];
    cbn [CheckErr fst snd] in *.
  { exists (CallPrintln EmptyString :: evs1 ++ evs2)%list.
    rewrite Ht2, Ht1; subst w1; cbn [trace]. rewrite <- !app_assoc.
    split; [reflexivity|]. split; [|discriminate].
    cbn [map kindOf]. rewrite map_app, Hf1. apply prefix_cons, prefix_app.
    now apply prefix_app_r. }
  specialize (Hf2 eq_refl). clear Hp2.
  destruct (confirmation_step_shape w3) as (evs3 & Ht3 & Hp3 & Hf3).
  unfold after, result in Ht3, Hf3.
  destruct (confirmDatasourceConfigs env w3) as [[e|[]] w4];
    cbn [CheckErr fst snd] in *.
  { exists (CallPrintln EmptyString :: evs1 ++ evs2 ++ evs3)%list.
    rewrite Ht3, Ht2, Ht1; subst w1; cbn [trace]. rewrite <- !app_assoc.
    split; [reflexivity|]. split; [|discriminate].
    cbn [map kindOf]. rewrite !map_app, Hf1, Hf2. apply prefix_cons, prefix_app, prefix_app.
    now apply prefix_app_r. }
  specialize (Hf3 eq_refl). clear Hp3.
  destruct (schema_step_shape w4) as (evs4 & Ht4 & Hp4 & Hf4).
  unfold after, result in Ht4, Hf4.
  exists (CallPrintln EmptyString :: evs1 ++ evs2 ++ evs3 ++ evs4)%list.
  destruct (buildDatarepoSchema env w4) as [[e|[]] w5];
    cbn [CheckErr fst snd] in *;
    rewrite Ht4, Ht3, Ht2, Ht1; subst w1; cbn [trace]; rewrite <- !app_assoc;
    (split; [reflexivity|]); cbn [map kindOf]; rewrite !map_app, Hf1, Hf2, Hf3.
  - split; [|discriminate].
    now apply prefix_cons, prefix_app, prefix_app, prefix_app.
  - rewrite (Hf4 eq_refl). split; [reflexivity|]. intros _; reflexivity.
Qed.

(** X12: a run that returns has built exactly one kind of manifest: the
    location is [AWSS3Selector] with an S3 config, the format option
    carries the CSV identifier with a CSV config. *)
Theorem successful_run_manifest (history : list Ev) (w5 : W) :
  ingestCmd_Run K env history = (Returned, w5) ->
  exists r c s,
    manifest w5 =
      {| selectedDatasourceType := r;
         DatasourceFormatConfig := CSVFilesFormat c;
         selectedDatasourceLocation := AWSS3Selector K;
         DatasourceLocationConfig := AWSS3Location s |} /\
    Value r = DataformatIDCSVFiles K.
Proof.
  intros Hrun.
  destruct (ingestCmd_Run_returned_inv _ _ Hrun) as (w4 & Hreach & Hschema).
  destruct (reachesSchemaStep_manifest _ _ Hreach) as (w3 & Hconf & Hm4).
  destruct (reachesConfirmation_manifest _ _ Hconf)
    as (r & d & h & bucket & prefix & options & t & _ & _ & _ & Hcsv & _ & Hm3).
  destruct (schema_step_success_inv _ _ Hschema) as (? & ? & ? & ? & _ & ->).
  cbn. rewrite Hm4, Hm3. eauto.
Qed.

(** X13: when single-choice prompts answer with an option they were given,
    a run that returns has stored [CommaSeparatedValuesFilesSelector]
    itself as the format, with the comma or the tab as delimiter. *)
Theorem successful_run_with_menu (history : list Ev) (w5 : W) :
  answersFromOptions env ->
  ingestCmd_Run K env history = (Returned, w5) ->
  selectedDatasourceType (manifest w5) = CommaSeparatedValuesFilesSelector K /\
  exists c,
    DatasourceFormatConfig (manifest w5) = CSVFilesFormat c /\
    (Delimiter c = CSVDelimiterCommas K \/ Delimiter c = CSVDelimiterTabs K).
Proof.
  intros Hmenu Hrun.
  destruct (ingestCmd_Run_returned_inv _ _ Hrun) as (w4 & Hreach & Hschema).
  destruct (reachesSchemaStep_manifest _ _ Hreach) as (w3 & Hconf & Hm4).
  destruct (reachesConfirmation_manifest _ _ Hconf)
    as (r & d & h & bucket & prefix & options & t
        & Hr & -> & Hd & Hcsv & Hne & Hm3).
  destruct (schema_step_success_inv _ _ Hschema) as (? & ? & ? & ? & _ & ->).
  cbn. rewrite Hm4, Hm3; cbn.
  apply Hmenu in Hr. apply Hmenu in Hd. unfold csvDelimiterSelectors in Hd.
  split.
  - apply elem_of_cons in Hr as [->|Hr]; [reflexivity|].
    apply elem_of_cons in Hr as [->|Hr]; [now contradiction Hne|].
    now apply elem_of_nil in Hr.
  - eexists. split; [reflexivity|]. cbn.
    apply elem_of_cons in Hd as [->|Hd]; [now left|].
    apply elem_of_cons in Hd as [->|Hd]; [now right|].
    now apply elem_of_nil in Hd.
Qed.

(** The schema step calls the sampler factory once, first. *)
Lemma schema_step_one_factory_call (w : W) :
  exists rest,
    trace (after (buildDatarepoSchema env w)) =
      (trace w ++
       CallSamplerFactory (DatasourceFormatConfig (manifest w))
                          (DatasourceLocationConfig (manifest w)) :: rest)%list /\
    Forall (fun ev => kindOf ev <> KSamplerFactory) rest.
Proof.
  unfold_steps; cbn.
  repeat (case_match; simplify_eq; cbn in *; simplify_eq);
    rewrite <- ?app_assoc; cbn;
    eexists; (split; [reflexivity|]); repeat constructor; discriminate.
Qed.

(** A run either gets to the schema step or ends without a sampling call. *)
Lemma run_reaches_schema_step_or_not (history : list Ev) :
  (exists w4, reachesSchemaStep K env history w4) \/
  (exists pre,
     trace (snd (ingestCmd_Run K env history)) = (history ++ pre)%list /\
     Forall (fun ev => isSamplingCall ev = false) pre).
Proof.
  rewrite ingestCmd_Run_unfold. unfold reachesSchemaStep, reachesConfirmation.
  set (w1 := mkWorld zeroManifest (history ++ [CallPrintln EmptyString])).
  destruct (location_step_no_sampling K env w1) as (evs1 & Ht1 & Hs1).
  unfold after in Ht1.
  destruct (buildDatasourceLocationConfig K env w1) as [[e|[]] w2] eqn:H1;
    cbn [CheckErr fst snd] in *.
  { right. exists (CallPrintln EmptyString :: evs1). rewrite Ht1; subst w1.
    cbn [trace]. rewrite <- app_assoc. split; [reflexivity|].
    constructor; [reflexivity|assumption]. }
  destruct (format_step_no_sampling K env w2) as (evs2 & Ht2 & Hs2).
  unfold after in Ht2.
  destruct (buildDatasourceFormatConfig K env w2) as [[e|[]] w3] eqn:H2;
    cbn [CheckErr fst snd] in *.
  { right. exists (CallPrintln EmptyString :: evs1 ++ evs2)%list.
    rewrite Ht2, Ht1; subst w1. cbn [trace]. rewrite <- !app_assoc.
    split; [reflexivity|].
    constructor; [reflexivity|now apply Forall_app]. }
  destruct (confirmation_step_no_sampling env w3) as (evs3 & Ht3 & Hs3).
  unfold after in Ht3.
  destruct (confirmDatasourceConfigs env w3) as [[e|[]] w4] eqn:H3;
    cbn [CheckErr fst snd] in *.
  { right. exists (CallPrintln EmptyString :: evs1 ++ evs2 ++ evs3)%list.
    rewrite Ht3, Ht2, Ht1; subst w1. cbn [trace]. rewrite <- !app_assoc.
    split; [reflexivity|].
    constructor; [reflexivity|]. apply Forall_app; split; [assumption|].
    now apply Forall_app. }
  left. eauto 10.
Qed.

(** The trace of a run at the schema step has no sampling call yet. *)
Lemma reachesSchemaStep_no_sampling (history : list Ev) (w : W) :
  reachesSchemaStep K env history w ->
  exists pre, trace w = (history ++ pre)%list /\
              Forall (fun ev => isSamplingCall ev = false) pre.
Proof.
  intros (w3 & Hreach & Hconf).
  destruct (reachesConfirmation_no_sampling K env _ _ Hreach)
    as (evs1 & Ht1 & Hs1).
  destruct (confirmation_step_no_sampling env w3) as (evs2 & Ht2 & Hs2).
  unfold after in Ht2. rewrite Hconf in Ht2; cbn [snd] in Ht2.
  exists (evs1 ++ evs2)%list. split.
  - rewrite Ht2, Ht1. now rewrite <- app_assoc.
  - now apply Forall_app.
Qed.

(** X14: in a run started from a fresh manifest, every call of the sampler
    factory carries a CSV config and an S3 config; the factory is never
    called with a nil config, nor with any other pair. *)
Theorem run_sampler_factory_arguments (history evs : list Ev)
    (f l : ManifestConfig) :
  trace (snd (ingestCmd_Run K env history)) = (history ++ evs)%list ->
  CallSamplerFactory f l ∈ evs ->
  exists c s, f = CSVFilesFormat c /\ l = AWSS3Location s.
Proof.
  intros Htrace Hin.
  destruct (run_reaches_schema_step_or_not history)
    as [(w4 & Hreach)|(pre & Hpre & Hno)].
  - rewrite (ingestCmd_Run_from_schema_step K env _ _ Hreach) in Htrace.
    destruct (reachesSchemaStep_no_sampling _ _ Hreach) as (pre & Ht4 & Hno).
    destruct (schema_step_one_factory_call w4) as (rest & Hschema & Hrest).
    unfold after in Hschema.
    destruct (reachesSchemaStep_manifest _ _ Hreach) as (w3 & Hconf & Hm4).
    destruct (reachesConfirmation_manifest _ _ Hconf)
      as (r & d & h & bucket & prefix & options & t & _ & _ & _ & _ & _ & Hm3).
    assert (Hevs : evs =
              (pre ++ CallSamplerFactory (DatasourceFormatConfig (manifest w4))
                        (DatasourceLocationConfig (manifest w4)) :: rest)%list).
    { apply (app_inv_head history). rewrite <- Htrace.
      destruct (buildDatarepoSchema env w4) as [[e|[]] w5];
        cbn [CheckErr snd] in *; rewrite Hschema, Ht4;
        now rewrite <- app_assoc. }
    subst evs. apply elem_of_app in Hin as [Hin|Hin].
    + rewrite Forall_forall in Hno. now specialize (Hno _ Hin).
    + apply elem_of_cons in Hin as [Heq|Hin].
      * injection Heq as -> ->. rewrite Hm4, Hm3; cbn. eauto.
      * rewrite Forall_forall in Hrest. now specialize (Hrest _ Hin).
  - rewrite Hpre in Htrace. apply app_inv_head in Htrace. subst pre.
    rewrite Forall_forall in Hno. now specialize (Hno _ Hin).
Qed.

(** X15: in a run that returns, the text shown for confirmation is the
    serialization of the manifest the run ends with, and the sampler
    factory was called with the two configs of that same manifest. *)
Theorem successful_run_confirmed_manifest (history : list Ev) (w5 : W) :
  ingestCmd_Run K env history = (Returned, w5) ->
  exists y evs,
    yaml_Marshal_manifest env (manifest w5) = inr y /\
    trace w5 = (history ++ evs)%list /\
    CallPrintln y ∈ evs /\
    CallSamplerFactory (DatasourceFormatConfig (manifest w5))
                       (DatasourceLocationConfig (manifest w5)) ∈ evs.
Proof.
  intros Hrun.
  destruct (ingestCmd_Run_returned_inv _ _ Hrun)
    as (w4 & (w3 & Hreach & Hconf) & Hschema).
  destruct (reachesConfirmation_no_sampling K env _ _ Hreach)
    as (pre & Ht3 & _).
  destruct (confirmation_step_success_inv _ _ Hconf) as (y & Hy & ->).
  destruct (schema_step_success_inv _ _ Hschema)
    as (sampler & sampled & text & buffer & _ & ->).
  cbn [manifest trace]. rewrite Ht3, <- !app_assoc.
  exists y. eexists. split; [exact Hy|]. split; [reflexivity|].
  split; rewrite !elem_of_app, !elem_of_cons; tauto.
Qed.

(** ** The S3 builder *)

(** X16: the S3 builder never touches the manifest; when the bucket prompt
    fails its error is returned and the prefix is not asked; when the
    prefix prompt fails its error is returned and the bucket typed before
    is dropped with the config. *)
Theorem s3_builder_stops_at_first_failure (w : W) :
  manifest (after (NewAWSS3LocationConfigFromPrompts env w)) = manifest w /\
  (forall e,
     TextPrompt env (trace w) "AWS S3 Bucket" = inl e ->
     NewAWSS3LocationConfigFromPrompts env w =
       (inl e, mkWorld (manifest w) (trace w ++ [CallTextPrompt "AWS S3 Bucket"]))) /\
  (forall bucket e,
     TextPrompt env (trace w) "AWS S3 Bucket" = inr bucket ->
     TextPrompt env (trace w ++ [CallTextPrompt "AWS S3 Bucket"])
       "AWS S3 Prefix" = inl e ->
     NewAWSS3LocationConfigFromPrompts env w =
       (inl e, mkWorld (manifest w)
                 (trace w ++ [CallTextPrompt "AWS S3 Bucket";
                              CallTextPrompt "AWS S3 Prefix"]))).
Proof.
  split; [|split].
  - unfold_steps; cbn. now repeat (case_match; simplify_eq; cbn in *).
  - intros e He. unfold_steps; cbn. now rewrite He.
  - intros bucket e Hb He. unfold_steps; cbn. rewrite Hb; cbn. rewrite He.
    now rewrite <- app_assoc.
Qed.

(** ** Where the error of a run comes from *)








End Coverage.

(** * The further properties on concrete runs *)

Section CoverageRuns.
Import Scenario.

(** The menu of the scenario answers with an option it was given. *)
Lemma menu_answersFromOptions (s : Script) : answersFromOptions (menu s).
Proof.
  intros history title help options r. cbn.
  destruct (pick s title) as [e|r']; [discriminate|].
  destruct (existsb (selectPromptData_eqb r') options) eqn:Hex; [|discriminate].
  intros [= <-]. apply existsb_exists in Hex as (x & Hin & Heq).
  apply selectPromptData_eqb_eq in Heq as ->. now apply list_elem_of_In.
Qed.

Lemma run_returned (env : Collaborators unit string string) :
  fst (ingestCmd_Run constants env []) = Returned ->
  ingestCmd_Run constants env [] =
    (Returned, snd (ingestCmd_Run constants env [])).
Proof. destruct (ingestCmd_Run constants env []); cbn. now intros ->. Qed.

(** AWS S3 chosen, CSV files picked: the manifest the format step leaves. *)
Lemma format_step_success_stores_csv_witness :
  Value (selectedDatasourceType
           (manifest (after (buildDatasourceFormatConfig constants
                               (scripted csvOnS3) s3Chosen)))) = "csv_files" /\
  selectedDatasourceLocation
    (manifest (after (buildDatasourceFormatConfig constants
                        (scripted csvOnS3) s3Chosen))) = AWSS3Selector constants.
Proof.
  destruct (format_step_success_stores_csv constants (scripted csvOnS3)
              s3Chosen
              (after (buildDatasourceFormatConfig constants
                        (scripted csvOnS3) s3Chosen)))
    as (Hvalue & _ & _ & Hloc & _).
  - apply result_after. vm_compute; reflexivity.
  - split; [exact Hvalue | exact Hloc].
Defined.

(** AWS S3 chosen, individual files picked from the two options shown. *)
Lemma format_step_offered_answer_witness :
  buildDatasourceFormatConfig constants (scripted filesOnS3) s3Chosen =
    (inl (errors_New "individual binary files not yet supported"),
     mkWorld (manifest s3Chosen)
       [formatPromptCall (allowedSelectors_index constants "aws_s3")]) \/
  exists rest,
    trace (after (buildDatasourceFormatConfig constants
                    (scripted filesOnS3) s3Chosen)) =
      formatPromptCall (allowedSelectors_index constants "aws_s3")
      :: delimiterPromptCall constants :: rest.
Proof.
  apply (format_step_offered_answer constants (scripted filesOnS3) s3Chosen
           (IndividualBinaryFilesSelector constants)).
  - reflexivity.
  - apply list_elem_of_In. vm_compute. tauto.
Defined.

(** The zero manifest and a menu: there is nothing to select. *)
Lemma format_step_missing_entry_with_menu_witness :
  exists e,
    buildDatasourceFormatConfig constants (menu csvOnS3) start =
      (inl e, mkWorld zeroManifest [formatPromptCall []]).
Proof.
  destruct (format_step_missing_entry_with_menu constants (menu csvOnS3) start)
    as (e & _ & Hstep).
  - apply menu_answersFromOptions.
  - vm_compute; reflexivity.
  - exists e. exact Hstep.
Defined.

(** A fresh run in which AWS S3 is picked and configured. *)
Lemma location_step_success_stores_s3_witness :
  DatasourceLocationConfig
    (manifest (after (buildDatasourceLocationConfig constants
                        (scripted csvOnS3) start))) =
    AWSS3Location {| Bucket := "my-bucket"; Prefix := "data/" |}.
Proof.
  destruct (location_step_success_stores_s3 constants (scripted csvOnS3) start
              (after (buildDatasourceLocationConfig constants
                        (scripted csvOnS3) start)))
    as (_ & (bucket & prefix & Hb & Hp & Hcfg) & _).
  - apply result_after. vm_compute; reflexivity.
  - rewrite Hcfg. injection Hb as <-. injection Hp as <-. reflexivity.
Defined.

(** The local directory picked from the two locations shown. *)
Lemma location_step_offered_answer_witness :
  buildDatasourceLocationConfig constants (scripted localDirectory) start =
    (inl (errors_New "local directories not yet supported"),
     mkWorld zeroManifest [locationPromptCall constants]) \/
  exists rest,
    trace (after (buildDatasourceLocationConfig constants
                    (scripted localDirectory) start)) =
      locationPromptCall constants :: CallTextPrompt "AWS S3 Bucket" :: rest.
Proof.
  apply (location_step_offered_answer constants (scripted localDirectory)
           start (LocalDirectorySelector constants)).
  - reflexivity.
  - apply list_elem_of_In. vm_compute. tauto.
Defined.

(** The format prompt of a run in which AWS S3 was configured. *)
Lemma format_prompt_after_location_step_witness :
  exists rest,
    trace (after (buildDatasourceFormatConfig constants (scripted csvOnS3)
                    (after (buildDatasourceLocationConfig constants
                              (scripted csvOnS3) start)))) =
      (trace (after (buildDatasourceLocationConfig constants
                       (scripted csvOnS3) start)) ++
       formatPromptCall [CommaSeparatedValuesFilesSelector constants;
                         IndividualBinaryFilesSelector constants] :: rest)%list.
Proof.
  apply (format_prompt_after_location_step constants (scripted csvOnS3) start).
  apply result_after. vm_compute; reflexivity.
Defined.

(** The CSV builder with a menu, and with the delimiter prompt interrupted. *)
Lemma csv_builder_delimiter_from_menu_witness :
  (exists c,
     result (NewCSVFilesFormatConfigFromPrompts constants (menu csvOnS3)
               s3Chosen) = inr c /\
     (Delimiter c = "," \/ Delimiter c = String (ascii_of_nat 9) EmptyString)) /\
  NewCSVFilesFormatConfigFromPrompts constants
    (scripted (interruptedAt "Delimiter")) s3Chosen =
    (inl (mkError "*errors.errorString" "^C"),
     mkWorld (manifest s3Chosen) [delimiterPromptCall constants]).
Proof.
  split.
  - destruct (csv_builder_delimiter_from_menu constants (menu csvOnS3) s3Chosen)
      as (_ & _ & Hmenu).
    exists {| Delimiter := ","; Header := true |}.
    split; [vm_compute; reflexivity|].
    apply (Hmenu (menu_answersFromOptions csvOnS3) _
             (after (NewCSVFilesFormatConfigFromPrompts constants
                       (menu csvOnS3) s3Chosen))).
    apply result_after. vm_compute; reflexivity.
  - destruct (csv_builder_delimiter_from_menu constants
                (scripted (interruptedAt "Delimiter")) s3Chosen)
      as (_ & Hfail & _).
    apply Hfail. reflexivity.
Defined.

(** A manifest the YAML library cannot serialize: nothing is printed. *)
Lemma confirmation_step_keeps_manifest_witness :
  confirmDatasourceConfigs (unserializable csvOnS3) csvChosen =
    (inl (mkError "*errors.errorString" "yaml: cannot marshal"), csvChosen).
Proof.
  destruct (confirmation_step_keeps_manifest (unserializable csvOnS3) csvChosen)
    as (_ & Hfail & _).
  apply Hfail. reflexivity.
Defined.

(** A run that goes through makes the eighteen calls. *)
Lemma every_run_follows_the_call_order_witness :
  exists evs,
    trace (snd (ingestCmd_Run constants (scripted csvOnS3) [])) = evs /\
    map kindOf evs = wizardCalls.
Proof.
  destruct (every_run_follows_the_call_order constants (scripted csvOnS3) [])
    as (evs & Htrace & _ & Hfull).
  exists evs. split; [exact Htrace|]. apply Hfull. vm_compute; reflexivity.
Defined.

Lemma successful_run_manifest_witness :
  exists r c s,
    manifest (snd (ingestCmd_Run constants (scripted csvOnS3) [])) =
      {| selectedDatasourceType := r;
         DatasourceFormatConfig := CSVFilesFormat c;
         selectedDatasourceLocation := AWSS3Selector constants;
         DatasourceLocationConfig := AWSS3Location s |} /\
    Value r = "csv_files".
Proof.
  apply (successful_run_manifest constants (scripted csvOnS3) []).
  apply run_returned. vm_compute; reflexivity.
Defined.

Lemma successful_run_with_menu_witness :
  selectedDatasourceType
    (manifest (snd (ingestCmd_Run constants (menu csvOnS3) []))) =
    CommaSeparatedValuesFilesSelector constants.
Proof.
  destruct (successful_run_with_menu constants (menu csvOnS3) []
              (snd (ingestCmd_Run constants (menu csvOnS3) [])))
    as (Hselected & _).
  - apply menu_answersFromOptions.
  - apply run_returned. vm_compute; reflexivity.
  - exact Hselected.
Defined.

Lemma run_sampler_factory_arguments_witness :
  exists c s,
    CSVFilesFormat {| Delimiter := ","; Header := true |} = CSVFilesFormat c /\
    AWSS3Location {| Bucket := "my-bucket"; Prefix := "data/" |} =
      AWSS3Location s.
Proof.
  apply (run_sampler_factory_arguments constants (scripted csvOnS3) []
           (trace (snd (ingestCmd_Run constants (scripted csvOnS3) [])))).
  - reflexivity.
  - apply list_elem_of_In. vm_compute.
    do 11 right. left. reflexivity.
Defined.

Lemma successful_run_confirmed_manifest_witness :
  exists y evs,
    yaml_Marshal_manifest (scripted csvOnS3)
      (manifest (snd (ingestCmd_Run constants (scripted csvOnS3) []))) = inr y /\
    trace (snd (ingestCmd_Run constants (scripted csvOnS3) [])) = evs /\
    CallPrintln y ∈ evs /\
    CallSamplerFactory
      (DatasourceFormatConfig
         (manifest (snd (ingestCmd_Run constants (scripted csvOnS3) []))))
      (DatasourceLocationConfig
         (manifest (snd (ingestCmd_Run constants (scripted csvOnS3) [])))) ∈ evs.
Proof.
  apply (successful_run_confirmed_manifest constants (scripted csvOnS3) []).
  apply run_returned. vm_compute; reflexivity.
Defined.

(** The prefix prompt interrupted after the bucket was typed. *)
Lemma s3_builder_stops_at_first_failure_witness :
  NewAWSS3LocationConfigFromPrompts (textInterruptedAt "AWS S3 Prefix" csvOnS3)
    start =
    (inl (mkError "*errors.errorString" "^C"),
     mkWorld zeroManifest [CallTextPrompt "AWS S3 Bucket";
                           CallTextPrompt "AWS S3 Prefix"]).
Proof.
  destruct (s3_builder_stops_at_first_failure
              (textInterruptedAt "AWS S3 Prefix" csvOnS3) start)
    as (_ & _ & Hprefix).
  apply (Hprefix "my-bucket"); reflexivity.
Defined.


End CoverageRuns.
